(** * picolog.data: readings, samples and the bounded data store

    A shallow embedding of [picolog/data.py] (classes [Sample], [Reading]
    and [DataStore]) together with the properties of the store that the
    specification states.

    Conventions of the embedding.
    - The source does not say which Python runs it (it starts with a
      [__future__] import and a comment of [json_repr] expects trouble
      with Python 3), and two of its lines mean different things on the
      two: [map] calls its function on every element at once on Python 2
      and returns an iterator, which the module drops, on Python 3; an
      [int] compared with [None] is the greater one on Python 2 and a
      [TypeError] on Python 3.  The methods that run these lines take the
      [interpreter] as their first argument, and the properties are stated
      for both wherever they hold on both.
    - [is] on two integers is CPython's: the same object for equal
      integers up to 256 only.
    - Python integers are [Z], floats are the primitive binary64 [float],
      lists are [list], ASCII strings are [string].
    - A raised exception is the [Raise] case of [result]; a method that
      mutates [self] before raising returns the mutated store next to the
      exception (the [DataStore.M] monad).
    - The [while] loop of [json_repr] is run with fuel; [None] means the
      fuel ran out. *)

From Stdlib Require Import ZArith String Ascii PrimFloat DecimalString.
From stdpp Require Import base tactics option list sorting.

Local Open Scope string_scope.
Local Open Scope Z_scope.

(** ** Exceptions and results *)

(** The exception classes the module raises, with the message given at the
    raise site.  The store deletes from an empty list in one place, which
    is Python's own [IndexError]. *)
Inductive exn : Type :=
| Exception (msg : string)
| ValueError (msg : string)
| IndexError (msg : string)
| TypeError (msg : string).

Inductive result (A : Type) : Type :=
| Ok (a : A)
| Raise (e : exn).
Arguments Ok {A} a.
Arguments Raise {A} e.

Definition is_ok {A} (r : result A) : bool :=
  match r with Ok _ => true | Raise _ => false end.

(** The messages, as the string literals of the source read once the
    backslash-newline continuations inside them are removed. *)
Definition msg_length_mismatch : string :=
  "Specified channels is not the same length asspecified samples".
Definition msg_invalid_channel : string := "Invalid channel".
Definition msg_earlier_time : string :=
  "A new reading time is earlier than an existing reading time".
Definition msg_too_long : string :=
  "Data is longer than maximum bytes and trim is not enabled".
Definition msg_del_empty : string := "list assignment index out of range".
Definition msg_int_none : string :=
  "'>' not supported between instances of 'int' and 'NoneType'".

(** The names the specification gives to these failures. *)
Definition LengthMismatch : exn := Exception msg_length_mismatch.
Definition InvalidChannel : exn := ValueError msg_invalid_channel.
Definition NonMonotonicTimeError : exn := Exception msg_earlier_time.
Definition PayloadTooLargeError : exn := Exception msg_too_long.

(** A conversion callback takes the list of sample values and returns a
    list of values, or raises. *)
Definition callback : Type := list float -> result (list float).

(** ** Python built-ins used by the module *)

(** [any(xs)] on a list of truth values. *)
Definition py_any (xs : list bool) : bool := existsb id xs.

(** [xs[:-1]]: all but the last element; the empty list stays empty. *)
Definition py_drop_last {A} (xs : list A) : list A := removelast xs.

(** The Python that runs the module. *)
Inductive interpreter : Type := Python2 | Python3.

(** [n > m] for an [int] [n] and an [m] that is an [int] or [None].  On
    Python 2 [None] is smaller than every number; on Python 3 the
    comparison with [None] raises [TypeError]. *)
Definition py_gt (py : interpreter) (n : Z) (m : option Z) : result bool :=
  match m with
  | Some m => Ok (m <? n)%Z
  | None =>
      match py with
      | Python2 => Ok true
      | Python3 => Raise (TypeError msg_int_none)
      end
  end.

(** [len(xs) is not len(ys)]: each [len] makes its integer; CPython hands
    out the same object for equal integers from -5 to 256 and a new one
    otherwise, so the two are the same object only if the lengths are equal
    and at most 256. *)
Definition len_is_not (n m : nat) : bool :=
  negb ((n =? m)%nat && (n <=? 256)%nat).

(** [str(n)] for an integer, also its JSON encoding. *)
Definition str_int (n : Z) : string := NilZero.string_of_int (Z.to_int n).

(** [sep.join(parts)] *)
Fixpoint join (sep : string) (parts : list string) : string :=
  match parts with
  | [] => EmptyString
  | [p] => p
  | p :: rest => p ++ sep ++ join sep rest
  end.

Definition dquote : string := String (ascii_of_nat 34) EmptyString.

(** [len(s)] *)
Definition len (s : string) : Z := Z.of_nat (String.length s).

Local Close Scope string_scope.

(** ** Sample *)

Module Sample.

Record t : Type := mk { channel : Z; value : float }.

(** [{'channel': ..., 'value': ...}] *)
Record dict : Type := mk_dict { k_channel : Z; k_value : float }.

(** [Sample.__init__]; [Channel.is_valid] comes from
    [picolog.constants] and is a parameter here.  [float(value)] is the
    identity on a float. *)
Definition init (is_valid : Z -> bool) (channel : Z) (value : float)
  : result t :=
  if is_valid channel then Ok (mk channel value)
  else Raise (ValueError msg_invalid_channel).

Definition dict_repr (self : t) : dict :=
  mk_dict (channel self) (value self).

(** [sample.value = new_value] *)
Definition set_value (self : t) (new_value : float) : t :=
  mk (channel self) new_value.

(** A [Sample] defines neither [__nonzero__] nor [__len__], so every
    instance is true. *)
Definition truth (self : t) : bool := true.

(** The dictionary of [dict_repr] after [Reading.sample_dict_gen] has
    added the key ['timestamp'] to it. *)
Record timed_dict : Type := mk_timed_dict {
  t_channel : Z;
  t_value : float;
  t_timestamp : Z
}.

End Sample.

(** ** Reading *)

Module Reading.

Record t : Type := mk {
  reading_time : Z;
  channels : list Z;
  samples : list Sample.t
}.

(** [{"reading_time": ..., "channels": ..., "samples": [...]}] *)
Record dict : Type := mk_dict {
  k_reading_time : Z;
  k_channels : list Z;
  k_samples : list Sample.dict
}.

(** The loop of [__init__] that appends one [Sample] per pair of
    [zip(channels, samples)]; the first invalid channel raises. *)
Fixpoint build_samples (is_valid : Z -> bool)
    (channels : list Z) (values : list float) : result (list Sample.t) :=
  match channels, values with
  | this_channel :: channels', this_sample :: values' =>
      match Sample.init is_valid this_channel this_sample with
      | Raise e => Raise e
      | Ok s =>
          match build_samples is_valid channels' values' with
          | Raise e => Raise e
          | Ok ss => Ok (s :: ss)
          end
      end
  | _, _ => Ok []
  end.

(** [Reading.__init__].  The source compares the two lengths with
    [is not].  [int(reading_time)] is the identity on an integer. *)
Definition init (is_valid : Z -> bool)
    (reading_time : Z) (channels : list Z) (values : list float)
  : result t :=
  if len_is_not (length channels) (length values)
  then Raise (Exception msg_length_mismatch)
  else
    match build_samples is_valid channels values with
    | Raise e => Raise e
    | Ok ss => Ok (mk reading_time channels ss)
    end.

Definition values (self : t) : list float :=
  map Sample.value (samples self).

Definition dict_repr (self : t) : dict :=
  mk_dict (reading_time self) (channels self)
          (map Sample.dict_repr (samples self)).

(** The write-back loop of [apply_function]:
    [for sample, new_value in zip(self.samples, output)].  [zip] stops at
    the shorter list; the samples beyond it keep their value. *)
Fixpoint write_back (samples : list Sample.t) (output : list float)
  : list Sample.t :=
  match samples, output with
  | sample :: samples', new_value :: output' =>
      Sample.set_value sample new_value :: write_back samples' output'
  | _, _ => samples
  end.

(** [apply_function]: the reading is mutated in place, so the result is
    the reading after the call. *)
Definition apply_function (self : t) (function : callback) : result t :=
  match function (values self) with
  | Raise e => Raise e
  | Ok output =>
      Ok (mk (reading_time self) (channels self)
             (write_back (samples self) output))
  end.

(** The test at the head of [DataStore.insert]'s loop:
    [reading.reading_time == 0 and not any([sample for sample in
    reading.samples if sample.value != 0])]. *)
Definition is_zero_sentinel (self : t) : bool :=
  (reading_time self =? 0)
  && negb (py_any (map Sample.truth
             (List.filter (fun sample => negb (Sample.value sample =? 0)%float)
                          (samples self)))).

(** [sample_dict_gen]: the dictionaries the generator yields, in order.
    Each one is a new dictionary made by [sample.dict_repr()], so adding
    the timestamp to it changes nothing else. *)
Definition sample_dict_gen (self : t) : list Sample.timed_dict :=
  map (fun sample =>
         let representation := Sample.dict_repr sample in
         Sample.mk_timed_dict (Sample.k_channel representation)
                              (Sample.k_value representation)
                              (reading_time self))
      (samples self).

End Reading.

(** ** JSON encoding of the dictionary form *)

(** [json.dumps] with its default separators, on the shapes [dict_repr]
    produces.  The text of a float is [repr] of the float, which is left as
    a parameter.  The keys are written in the order of the source's
    literal, which is the order Python 3 keeps; a Python 2 [dict] lists its
    keys in hash order, and [json_repr] only looks at the length of the
    text, which is the same for every key order. *)
Module Json.
Section Dumps.
Local Open Scope string_scope.
Variable float_repr : float -> string.

Definition key (k : string) : string := dquote ++ k ++ dquote ++ ": ".

Definition dumps_list (items : list string) : string :=
  "[" ++ join ", " items ++ "]".

Definition dumps_sample (d : Sample.dict) : string :=
  "{" ++ key "channel" ++ str_int (Sample.k_channel d) ++ ", "
      ++ key "value" ++ float_repr (Sample.k_value d) ++ "}".

Definition dumps_reading (d : Reading.dict) : string :=
  "{" ++ key "reading_time" ++ str_int (Reading.k_reading_time d) ++ ", "
      ++ key "channels" ++ dumps_list (map str_int (Reading.k_channels d))
      ++ ", "
      ++ key "samples" ++ dumps_list (map dumps_sample (Reading.k_samples d))
      ++ "}".

Definition dumps (json_readings : list Reading.dict) : string :=
  dumps_list (map dumps_reading json_readings).

End Dumps.
End Json.

(** ** DataStore *)

Module DataStore.

Record t : Type := mk {
  reading_storage_length : Z;
  increase_buffer : bool;
  conversion_callbacks : list callback;
  readings : list Reading.t
}.

(** [DataStore.__init__]; [int(reading_storage_length)] is the identity
    on an integer. *)
Definition init (reading_storage_length : Z) (increase_buffer : bool)
    (conversion_callbacks : list callback) : t :=
  mk reading_storage_length increase_buffer conversion_callbacks [].

Definition default_increase_buffer : bool := false.
Definition default_conversion_callbacks : list callback := [].

(** *** Methods that mutate [self]

    A computation takes the store and returns the store it leaves behind
    together with its value or the exception it raised. *)
Definition M (A : Type) : Type := t -> result A * t.

#[global] Instance M_ret : MRet M := fun A a self => (Ok a, self).

#[global] Instance M_bind : MBind M := fun A B f m self =>
  match m self with
  | (Ok a, self') => f a self'
  | (Raise e, self') => (Raise e, self')
  end.

Definition raise {A} (e : exn) : M A := fun self => (Raise e, self).
Definition lift {A} (r : result A) : M A := fun self => (r, self).
Definition get : M t := fun self => (Ok self, self).

(** [self.readings = rs] (also the effect of [del] and [append]) *)
Definition set_readings (rs : list Reading.t) : M unit := fun self =>
  (Ok tt, mk (reading_storage_length self) (increase_buffer self)
             (conversion_callbacks self) rs).

(** [self.reading_storage_length = n] *)
Definition set_reading_storage_length (n : Z) : M unit := fun self =>
  (Ok tt, mk n (increase_buffer self) (conversion_callbacks self)
             (readings self)).

(** "check the reading time is latest": [self.readings[-1]] exists
    exactly when [len(self.readings) > 0]. *)
Definition check_latest (reading : Reading.t) : M unit :=
  self ← get;
  match last (readings self) with
  | Some newest =>
      if Reading.reading_time reading <=? Reading.reading_time newest
      then raise (Exception msg_earlier_time)
      else mret tt
  | None => mret tt
  end.

(** "check length and remove a reading if necessary";
    [del(self.readings[0])] on an empty list raises [IndexError]. *)
Definition make_room : M unit :=
  self ← get;
  if reading_storage_length self <=? Z.of_nat (length (readings self))
  then
    if increase_buffer self
    then set_reading_storage_length (reading_storage_length self + 1)
    else
      match readings self with
      | [] => raise (IndexError msg_del_empty)
      | _ :: rest => set_readings rest
      end
  else mret tt.

(** The calls [lambda func: reading.apply_function(func)] makes when it
    is run on every callback, in order: each callback in turn mutates the
    same reading; the first raise ends the run. *)
Fixpoint call_each (reading : Reading.t) (callbacks : list callback)
  : result Reading.t :=
  match callbacks with
  | [] => Ok reading
  | func :: callbacks' =>
      match Reading.apply_function reading func with
      | Raise e => Raise e
      | Ok reading' => call_each reading' callbacks'
      end
  end.

(** The statement [map(lambda func: reading.apply_function(func),
    self.conversion_callbacks)], whose value the module drops.  Python 2's
    [map] runs the calls; Python 3's returns an iterator and calls nothing,
    so the reading stays as it is. *)
Definition apply_callbacks (py : interpreter)
    (reading : Reading.t) (callbacks : list callback) : result Reading.t :=
  match py with
  | Python2 => call_each reading callbacks
  | Python3 => Ok reading
  end.

Definition _insert_reading (py : interpreter) (reading : Reading.t)
  : M unit :=
  self ← get;
  converted ← lift (apply_callbacks py reading (conversion_callbacks self));
  set_readings (readings self ++ [converted]).

Fixpoint insert (py : interpreter) (readings : list Reading.t) : M unit :=
  match readings with
  | [] => mret tt
  | reading :: readings' =>
      if Reading.is_zero_sentinel reading then insert py readings'
      else
        check_latest reading;;
        make_room;;
        _insert_reading py reading;;
        insert py readings'
  end.

(** The loop of [insert_from_dict] that builds one [Reading] per row. *)
Fixpoint readings_of_rows (is_valid : Z -> bool) (ddict : list Reading.dict)
  : result (list Reading.t) :=
  match ddict with
  | [] => Ok []
  | row :: ddict' =>
      let values := map Sample.k_value (Reading.k_samples row) in
      match Reading.init is_valid (Reading.k_reading_time row)
              (Reading.k_channels row) values with
      | Raise e => Raise e
      | Ok reading =>
          match readings_of_rows is_valid ddict' with
          | Raise e => Raise e
          | Ok readings => Ok (reading :: readings)
          end
      end
  end.

Definition insert_from_dict (py : interpreter) (is_valid : Z -> bool)
    (ddict : list Reading.dict) : M unit :=
  readings ← lift (readings_of_rows is_valid ddict);
  insert py readings.

(** A constructor followed by a mutating call: the new object is
    returned only if the call did not raise. *)
Definition returning (obj : t) (m : M unit) : result t :=
  match m obj with
  | (Ok _, obj') => Ok obj'
  | (Raise e, _) => Raise e
  end.

(** [instance_from_dict(ddict, *args, **kwargs)]; the extra arguments
    are those of [__init__] after the storage length. *)
Definition instance_from_dict (py : interpreter) (is_valid : Z -> bool)
    (ddict : list Reading.dict)
    (increase_buffer : bool) (conversion_callbacks : list callback)
  : result t :=
  returning
    (init (Z.of_nat (length ddict)) increase_buffer conversion_callbacks)
    (insert_from_dict py is_valid ddict).

Definition instance_with_readings (py : interpreter) (self : t)
    (readings : list Reading.t) : result t :=
  returning
    (init (reading_storage_length self) default_increase_buffer
          default_conversion_callbacks)
    (insert py readings).

(** *** Queries *)

Definition find_reading (self : t) (timestamp : Z) : option Reading.t :=
  List.find (fun reading => Reading.reading_time reading =? timestamp)
            (readings self).

Definition find_readings_after (py : interpreter) (self : t)
    (timestamp : Z) : result t :=
  instance_with_readings py self
    (List.filter (fun reading => timestamp <? Reading.reading_time reading)
                 (readings self)).

Definition find_readings_before (py : interpreter) (self : t)
    (timestamp : Z) : result t :=
  instance_with_readings py self
    (List.filter (fun reading => Reading.reading_time reading <=? timestamp)
                 (readings self)).

(** *** JSON *)

Section JsonRepr.
Variable py : interpreter.
Variable float_repr : float -> string.

(** The [while] loop of [json_repr].  Its body encodes
    [json_readings[:-1]] and never assigns [json_readings]. *)
Fixpoint trim_loop (fuel : nat) (json_readings : list Reading.dict)
    (max_bytes : option Z) (json_encoded : string)
  : option (result string) :=
  match fuel with
  | O => None
  | S fuel' =>
      match py_gt py (len json_encoded) max_bytes with
      | Raise e => Some (Raise e)
      | Ok true =>
          trim_loop fuel' json_readings max_bytes
            (Json.dumps float_repr (py_drop_last json_readings))
      | Ok false => Some (Ok json_encoded)
      end
  end.

(** [json_repr(max_bytes=None, max_bytes_data_trim=True)] *)
Definition json_repr (fuel : nat) (self : t)
    (max_bytes : option Z) (max_bytes_data_trim : bool)
  : option (result string) :=
  let json_readings := map Reading.dict_repr (readings self) in
  let json_encoded := Json.dumps float_repr json_readings in
  match py_gt py (len json_encoded) max_bytes with
  | Raise e => Some (Raise e)
  | Ok true =>
      if max_bytes_data_trim
      then trim_loop fuel json_readings max_bytes json_encoded
      else Some (Raise (Exception msg_too_long))
  | Ok false => Some (Ok json_encoded)
  end.

End JsonRepr.

(** [sample_dict_gen]: one generator of [Reading.sample_dict_gen] per
    stored reading, in storage order; each is given by what it yields. *)
Definition sample_dict_gen (self : t) : list (list Sample.timed_dict) :=
  map Reading.sample_dict_gen (readings self).

End DataStore.

(** ** Vocabulary of the properties *)

Module Props.
Import DataStore.

(** The body of [insert]'s loop for a reading that is not skipped. *)
Definition insert_body (py : interpreter) (reading : Reading.t) : M unit :=
  check_latest reading;; make_room;; _insert_reading py reading.

(** A caller that inserts its readings one call at a time, keeping the
    outcome of every call. *)
Fixpoint insert_one_at_a_time (py : interpreter)
    (readings : list Reading.t) (self : t) : list (result unit) * t :=
  match readings with
  | [] => ([], self)
  | reading :: readings' =>
      let (outcome, self') := insert py [reading] self in
      let (outcomes, self'') := insert_one_at_a_time py readings' self' in
      (outcome :: outcomes, self'')
  end.

(** The stores a program can get to from [start] by calling [insert] and
    [insert_from_dict], whether or not the calls raise. *)
Inductive reachable (py : interpreter) (is_valid : Z -> bool) (start : t)
  : t -> Prop :=
| reach_start : reachable py is_valid start start
| reach_insert self readings :
    reachable py is_valid start self ->
    reachable py is_valid start (snd (insert py readings self))
| reach_insert_from_dict self ddict :
    reachable py is_valid start self ->
    reachable py is_valid start
      (snd (insert_from_dict py is_valid ddict self)).

Definition times (self : t) : list Z :=
  map Reading.reading_time (readings self).

(** Strictly ascending reading times. *)
Definition ordered (self : t) : Prop := StronglySorted Z.lt (times self).

Definition within_capacity (self : t) : Prop :=
  Z.of_nat (length (readings self)) <= reading_storage_length self.

Fixpoint max_time (ts : list Z) : option Z :=
  match ts with
  | [] => None
  | t :: ts' =>
      match max_time ts' with
      | None => Some t
      | Some m => Some (Z.max t m)
      end
  end.

(** The largest reading time in the store, if it holds a reading. *)
Definition max_timestamp (self : t) : option Z := max_time (times self).

(** Python's [value == 0] on a float: true of both zeros, false of NaN. *)
Definition zero_valued (sample : Sample.t) : Prop :=
  (Sample.value sample =? 0)%float = true.

(** A reading as [Reading.__init__] builds it. *)
Definition built (is_valid : Z -> bool) (reading : Reading.t) : Prop :=
  exists reading_time channels values,
    Reading.init is_valid reading_time channels values = Ok reading.

Definition not_sentinel (reading : Reading.t) : Prop :=
  Reading.is_zero_sentinel reading = false.

(** [self] with another list of readings. *)
Definition with_readings (self : t) (rs : list Reading.t) : t :=
  mk (reading_storage_length self) (increase_buffer self)
     (conversion_callbacks self) rs.

(** The last [n] elements of a list. *)
Definition newest {A} (n : nat) (l : list A) : list A :=
  drop (length l - n) l.

(** A validity test for the worked examples: channels 1 to 16. *)
Definition sixteen_channels (channel : Z) : bool :=
  (1 <=? channel) && (channel <=? 16).

(** The outcomes of one pass through the loop body.  [fresher] is the
    time check passed; [room reading self rs cap] says that moreover
    [make_room] left the readings [rs] and the capacity [cap]. *)
Definition fresher (reading : Reading.t) (self : t) : Prop :=
  forall latest, last (readings self) = Some latest ->
    Reading.reading_time latest < Reading.reading_time reading.

Inductive room (reading : Reading.t) (self : t)
  : list Reading.t -> Z -> Prop :=
| room_free :
    fresher reading self ->
    Z.of_nat (length (readings self)) < reading_storage_length self ->
    room reading self (readings self) (reading_storage_length self)
| room_grown :
    fresher reading self ->
    reading_storage_length self <= Z.of_nat (length (readings self)) ->
    increase_buffer self = true ->
    room reading self (readings self) (reading_storage_length self + 1)
| room_evicted oldest rest :
    fresher reading self ->
    reading_storage_length self <= Z.of_nat (length (readings self)) ->
    increase_buffer self = false ->
    readings self = oldest :: rest ->
    room reading self rest (reading_storage_length self).

Inductive body_outcome (py : interpreter) (reading : Reading.t) (self : t)
  : result unit * t -> Prop :=
| body_stale latest :
    last (readings self) = Some latest ->
    Reading.reading_time reading <= Reading.reading_time latest ->
    body_outcome py reading self (Raise NonMonotonicTimeError, self)
| body_no_room :
    fresher reading self ->
    reading_storage_length self <= 0 ->
    increase_buffer self = false ->
    readings self = [] ->
    body_outcome py reading self (Raise (IndexError msg_del_empty), self)
| body_callback_raised rs cap e :
    room reading self rs cap ->
    apply_callbacks py reading (conversion_callbacks self) = Raise e ->
    body_outcome py reading self
      (Raise e, mk cap (increase_buffer self) (conversion_callbacks self) rs)
| body_appended rs cap converted :
    room reading self rs cap ->
    apply_callbacks py reading (conversion_callbacks self) = Ok converted ->
    body_outcome py reading self
      (Ok tt, mk cap (increase_buffer self) (conversion_callbacks self)
                 (rs ++ [converted])).

(** Worked examples: a reading of channel 1 alone, and the reading of
    channels 1 and 2 that the specification uses. *)
Definition reading_at (reading_time : Z) (value : float) : Reading.t :=
  Reading.mk reading_time [1] [Sample.mk 1 value].

Definition reading_of_two (reading_time : Z) (v1 v2 : float) : Reading.t :=
  Reading.mk reading_time [1; 2] [Sample.mk 1 v1; Sample.mk 2 v2].

(** The store after some calls of [insert] on a new store. *)
Definition after_inserts (py : interpreter) (start : t)
    (batches : list (list Reading.t)) : t :=
  fold_left (fun self readings => snd (insert py readings self)) batches start.

(** The store of the specification's example: capacity 3, one reading at
    time 5 whose two samples are zero. *)
Definition store_at_5 (py : interpreter) : t :=
  after_inserts py (init 3 false []) [[reading_of_two 5 0 0]].

(** A store of capacity 3 holding readings at times 1 and 3. *)
Definition store_of_two (py : interpreter) : t :=
  after_inserts py (init 3 false []) [[reading_at 1 0.5; reading_at 3 0.5]].

(** A store built with storage length -1 and buffer growth, after one
    insert. *)
Definition store_grown_from_negative (py : interpreter) : t :=
  after_inserts py (init (-1) true []) [[reading_at 1 0.5]].

(** A callback that sets every value to zero, and a store with this
    callback after the insert of a reading at time 0, on Python 2, where
    the callback is called. *)
Definition zeroing : callback :=
  fun values => Ok (map (fun _ => 0%float) values).

Definition store_of_zeroed : t :=
  after_inserts Python2 (init 2 false [zeroing]) [[reading_at 0 0.5]].

(** The reading [insert_from_dict] builds from one row. *)
Definition reading_of_row (is_valid : Z -> bool) (row : Reading.dict)
  : result Reading.t :=
  Reading.init is_valid (Reading.k_reading_time row) (Reading.k_channels row)
    (map Sample.k_value (Reading.k_samples row)).

(** A batch without the readings that [insert] skips. *)
Definition without_sentinels (readings : list Reading.t) : list Reading.t :=
  List.filter (fun reading => negb (Reading.is_zero_sentinel reading)) readings.

(** The callbacks as one function on values: each is given what the one
    before it returned; the first raise ends the chain. *)
Fixpoint pipeline (callbacks : list callback) (values : list float)
  : result (list float) :=
  match callbacks with
  | [] => Ok values
  | func :: callbacks' =>
      match func values with
      | Raise e => Raise e
      | Ok output => pipeline callbacks' output
      end
  end.

(** A callback that returns as many values as it is given. *)
Definition keeps_length (func : callback) : Prop :=
  forall values output,
    func values = Ok output -> length output = length values.

(** The timestamps of all dictionaries of [DataStore.sample_dict_gen], in
    the order a consumer of the nested generators meets them. *)
Definition yielded_timestamps (self : t) : list Z :=
  map Sample.t_timestamp (concat (sample_dict_gen self)).


End Props.

(** * Properties *)

Import Props.

(** ** The loop of [insert] *)

Ltac unfold_store_monad :=
  unfold insert_body, DataStore.check_latest, DataStore.make_room,
    DataStore._insert_reading, DataStore.insert_from_dict,
    DataStore.set_readings, DataStore.set_reading_storage_length,
    DataStore.get, DataStore.raise, DataStore.lift,
    mbind, DataStore.M_bind, mret, DataStore.M_ret in *.

Lemma insert_nil {py} self : DataStore.insert py [] self = (Ok tt, self).
Proof. reflexivity. Qed.

Lemma insert_cons {py} reading readings self :
  DataStore.insert py (reading :: readings) self =
  if Reading.is_zero_sentinel reading then DataStore.insert py readings self
  else
    match insert_body py reading self with
    | (Ok _, self') => DataStore.insert py readings self'
    | (Raise e, self') => (Raise e, self')
    end.
Proof.
  cbn [DataStore.insert]. destruct (Reading.is_zero_sentinel reading); [done|].
  unfold_store_monad. simpl.
  repeat (case_match; simplify_eq/=; try done).
Qed.

Lemma insert_app {py} before after self :
  DataStore.insert py (before ++ after) self =
  match DataStore.insert py before self with
  | (Ok _, self') => DataStore.insert py after self'
  | (Raise e, self') => (Raise e, self')
  end.
Proof.
  revert self. induction before as [|reading before IH]; intros self.
  - done.
  - rewrite <- app_comm_cons, !insert_cons.
    destruct (Reading.is_zero_sentinel reading); [apply IH|].
    destruct (insert_body py reading self) as [[[]|e] self']; [apply IH|done].
Qed.

(** Closes the two cases that remain once [make_room] is through: the
    callbacks raise, or the converted reading is appended. *)
Ltac after_room py reading self rs cap :=
  let Hcb := fresh "Hcb" in
  cbn;
  destruct (DataStore.apply_callbacks py reading
              (DataStore.conversion_callbacks self)) eqn:Hcb;
  cbn in Hcb |- *; try rewrite Hcb; cbn;
  [ apply (body_appended py reading self rs cap) with (converted := _)
  | apply (body_callback_raised py reading self rs cap) ];
  [ | done | | done ];
  first [ by apply room_free | by apply room_grown | by eapply room_evicted ].

Lemma insert_body_outcome py reading self :
  body_outcome py reading self (insert_body py reading self).
Proof.
  destruct self as [cap grow callbacks rs].
  unfold_store_monad. cbn.
  destruct (last rs) as [latest|] eqn:Hlast.
  - destruct (Z.leb_spec (Reading.reading_time reading)
                         (Reading.reading_time latest)) as [Hle|Hlt].
    { by eapply body_stale. }
    assert (fresher reading (DataStore.mk cap grow callbacks rs)) as Hfresh.
    { intros latest'. cbn. naive_solver. }
    cbn. destruct (Z.leb_spec cap (Z.of_nat (length rs))) as [Hfull|Hfree].
    + destruct grow; cbn.
      * after_room py reading (DataStore.mk cap true callbacks rs) rs (cap + 1).
      * destruct rs as [|oldest rest]; [done|].
        after_room py reading (DataStore.mk cap false callbacks (oldest :: rest))
                   rest cap.
    + after_room py reading (DataStore.mk cap grow callbacks rs) rs cap.
  - apply last_None in Hlast as ->. cbn.
    assert (fresher reading (DataStore.mk cap grow callbacks [])) as Hfresh.
    { intros latest'. cbn. done. }
    change (Z.of_nat 0) with 0.
    destruct (Z.leb_spec cap 0) as [Hfull|Hfree].
    + destruct grow; cbn.
      * after_room py reading (DataStore.mk cap true callbacks [])
                   (@nil Reading.t) (cap + 1).
      * by apply body_no_room.
    + after_room py reading (DataStore.mk cap grow callbacks [])
                 (@nil Reading.t) cap.
Qed.

(** ** Conversion keeps time, channels and shape *)

Lemma write_back_channels samples output :
  map Sample.channel (Reading.write_back samples output)
  = map Sample.channel samples.
Proof.
  revert output. induction samples as [|sample samples IH]; intros [|v output];
    cbn; try done. by rewrite IH.
Qed.

Lemma apply_function_frame reading function reading' :
  Reading.apply_function reading function = Ok reading' ->
  Reading.reading_time reading' = Reading.reading_time reading
  /\ Reading.channels reading' = Reading.channels reading
  /\ map Sample.channel (Reading.samples reading')
     = map Sample.channel (Reading.samples reading).
Proof.
  unfold Reading.apply_function.
  destruct (function (Reading.values reading)); [|done].
  intros [= <-]. cbn. by rewrite write_back_channels.
Qed.

Lemma call_each_frame callbacks : forall reading reading',
  DataStore.call_each reading callbacks = Ok reading' ->
  Reading.reading_time reading' = Reading.reading_time reading
  /\ Reading.channels reading' = Reading.channels reading
  /\ map Sample.channel (Reading.samples reading')
     = map Sample.channel (Reading.samples reading).
Proof.
  induction callbacks as [|func callbacks IH]; intros reading reading'; cbn.
  - by intros [= <-].
  - destruct (Reading.apply_function reading func) as [mid|] eqn:Hfunc; [|done].
    intros Hrest. apply IH in Hrest as (-> & -> & ->).
    by apply apply_function_frame in Hfunc.
Qed.

Lemma apply_callbacks_frame {py} callbacks : forall reading reading',
  DataStore.apply_callbacks py reading callbacks = Ok reading' ->
  Reading.reading_time reading' = Reading.reading_time reading
  /\ Reading.channels reading' = Reading.channels reading
  /\ map Sample.channel (Reading.samples reading')
     = map Sample.channel (Reading.samples reading).
Proof.
  intros reading reading'. destruct py; cbn.
  - apply call_each_frame.
  - by intros [= <-].
Qed.

Lemma apply_callbacks_none {py} reading :
  DataStore.apply_callbacks py reading [] = Ok reading.
Proof. by destruct py. Qed.

(** ** Facts about ascending lists of times *)

Lemma last_map {A B} (f : A -> B) (l : list A) :
  last (map f l) = option_map f (last l).
Proof.
  induction l as [|x [|y l] IH]; [done..|].
  change (map f (x :: y :: l)) with (f x :: f y :: map f l).
  by rewrite !last_cons_cons.
Qed.

Lemma ascending_upto_last (ts : list Z) (newest_t t : Z) :
  StronglySorted Z.lt ts -> last ts = Some newest_t -> t ∈ ts -> t <= newest_t.
Proof.
  intros Hsorted Hlast Hin. apply last_Some in Hlast as [front ->].
  apply StronglySorted_app in Hsorted as (Hcross & _ & _).
  apply elem_of_app in Hin as [Hin|Hin].
  - assert (t < newest_t); [|lia]. apply Hcross; [done|apply list_elem_of_singleton; done].
  - apply list_elem_of_singleton in Hin. lia.
Qed.

Lemma ascending_snoc (ts : list Z) (t : Z) :
  StronglySorted Z.lt ts ->
  (forall newest_t, last ts = Some newest_t -> newest_t < t) ->
  StronglySorted Z.lt (ts ++ [t]).
Proof.
  intros Hsorted Hnew. apply StronglySorted_app. split_and!; [|done|].
  - intros t1 t2 Hin1 Hin2. apply list_elem_of_singleton in Hin2 as ->.
    destruct (last ts) as [newest_t|] eqn:Hlast.
    + pose proof (ascending_upto_last ts newest_t t1 Hsorted Hlast Hin1).
      specialize (Hnew newest_t eq_refl). lia.
    + apply last_None in Hlast as ->. by apply elem_of_nil in Hin1.
  - repeat constructor.
Qed.

Lemma ascending_NoDup (ts : list Z) : StronglySorted Z.lt ts -> NoDup ts.
Proof.
  induction 1 as [|t ts Hsorted IH Hall]; constructor; [|done].
  intros Hin. rewrite Forall_forall in Hall.
  assert (t < t); [|lia]. by apply Hall.
Qed.

Lemma max_time_last (ts : list Z) :
  StronglySorted Z.lt ts -> max_time ts = last ts.
Proof.
  induction 1 as [|t ts Hsorted IH Hall]; [done|].
  cbn [max_time]. rewrite IH, last_cons.
  destruct (last ts) as [newest_t|] eqn:Hlast; [|done].
  f_equal. apply last_Some_elem_of in Hlast.
  rewrite Forall_forall in Hall.
  assert (t < newest_t); [|lia]. by apply Hall.
Qed.

(** ** Invariants of the store *)

Lemma insert_preserves {py} (P : DataStore.t -> Prop) :
  (forall reading self,
     not_sentinel reading -> P self -> P (snd (insert_body py reading self))) ->
  forall readings self, P self -> P (snd (DataStore.insert py readings self)).
Proof.
  intros Hbody readings.
  induction readings as [|reading readings IH]; intros self HP; [done|].
  rewrite insert_cons.
  destruct (Reading.is_zero_sentinel reading) eqn:Hsentinel; [by apply IH|].
  specialize (Hbody reading self Hsentinel HP).
  destruct (insert_body py reading self) as [[[]|e] self']; [by apply IH|done].
Qed.

Lemma reachable_preserves {py} is_valid (P : DataStore.t -> Prop) start :
  (forall reading self,
     not_sentinel reading -> P self -> P (snd (insert_body py reading self))) ->
  P start ->
  forall self, reachable py is_valid start self -> P self.
Proof.
  intros Hbody Hstart self Hreach.
  induction Hreach as [|self readings _ IH|self ddict _ IH]; [done| |].
  - by apply insert_preserves.
  - unfold_store_monad.
    destruct (DataStore.readings_of_rows is_valid ddict); [|done].
    by apply insert_preserves.
Qed.

Lemma room_fresher reading self rs cap :
  room reading self rs cap ->
  forall latest, last rs = Some latest ->
    Reading.reading_time latest < Reading.reading_time reading.
Proof.
  intros [Hfresh _|Hfresh _ _|oldest rest Hfresh _ _ Hrs] latest Hlast;
    apply Hfresh; [done..|].
  rewrite Hrs, last_cons. by rewrite Hlast.
Qed.

Lemma room_ordered reading self rs cap :
  room reading self rs cap -> ordered self ->
  StronglySorted Z.lt (map Reading.reading_time rs).
Proof.
  intros [| |oldest rest _ _ _ Hrs]; unfold ordered, times; [done..|].
  rewrite Hrs. cbn. by intros [_ ?]%StronglySorted_cons.
Qed.

Lemma room_length reading self rs cap :
  room reading self rs cap -> within_capacity self ->
  Z.of_nat (length rs) < cap.
Proof.
  unfold within_capacity.
  intros [|_ ? _|oldest rest _ _ _ Hrs]; [lia..|].
  rewrite Hrs. cbn [length]. lia.
Qed.

Lemma body_ordered py reading self :
  ordered self -> ordered (snd (insert_body py reading self)).
Proof.
  intros Hordered.
  destruct (insert_body_outcome py reading self)
    as [| |rs cap e Hroom _|rs cap converted Hroom Hcb]; cbn; try done.
  - by eapply room_ordered.
  - unfold ordered, times. cbn. rewrite map_app. cbn.
    apply apply_callbacks_frame in Hcb as (-> & _).
    apply ascending_snoc; [by eapply room_ordered|].
    intros newest_t. rewrite last_map.
    destruct (last rs) as [latest|] eqn:Hlast; [|done].
    intros [= <-]. by eapply room_fresher.
Qed.

Lemma body_within_capacity {py} reading self :
  within_capacity self -> within_capacity (snd (insert_body py reading self)).
Proof.
  intros Hwithin.
  destruct (insert_body_outcome py reading self)
    as [| |rs cap e Hroom _|rs cap converted Hroom _]; cbn; try done.
  - pose proof (room_length _ _ _ _ Hroom Hwithin).
    unfold within_capacity. cbn. lia.
  - pose proof (room_length _ _ _ _ Hroom Hwithin).
    unfold within_capacity. cbn. rewrite length_app. cbn. lia.
Qed.

Lemma body_settings py reading self :
  DataStore.increase_buffer (snd (insert_body py reading self))
    = DataStore.increase_buffer self
  /\ DataStore.conversion_callbacks (snd (insert_body py reading self))
    = DataStore.conversion_callbacks self.
Proof. by destruct (insert_body_outcome py reading self). Qed.

Lemma reachable_settings {py} is_valid start self :
  reachable py is_valid start self ->
  DataStore.increase_buffer self = DataStore.increase_buffer start
  /\ DataStore.conversion_callbacks self = DataStore.conversion_callbacks start.
Proof.
  apply (reachable_preserves is_valid (fun self =>
    DataStore.increase_buffer self = DataStore.increase_buffer start
    /\ DataStore.conversion_callbacks self
       = DataStore.conversion_callbacks start)); [|done].
  intros reading s _ [<- <-]. apply body_settings.
Qed.

Lemma reachable_ordered {py} is_valid start self :
  ordered start -> reachable py is_valid start self -> ordered self.
Proof.
  intros Hstart. apply (reachable_preserves is_valid ordered); [|done].
  intros reading s _. apply body_ordered.
Qed.

Lemma reachable_within_capacity {py} is_valid start self :
  within_capacity start -> reachable py is_valid start self ->
  within_capacity self.
Proof.
  intros Hstart. apply (reachable_preserves is_valid within_capacity); [|done].
  intros reading s _. apply body_within_capacity.
Qed.

Lemma reachable_after_inserts {py} is_valid start batches :
  reachable py is_valid start (after_inserts py start batches).
Proof.
  unfold after_inserts. generalize (reach_start py is_valid start).
  generalize start at 2 4 as self. revert start.
  induction batches as [|readings batches IH]; intros start self Hreach;
    cbn; [done|].
  by apply IH, reach_insert.
Qed.

(** ** The zero sentinel *)

Lemma any_nonzero_false samples :
  py_any (map Sample.truth
            (List.filter (fun sample => negb (Sample.value sample =? 0)%float)
                         samples)) = false
  <-> Forall zero_valued samples.
Proof.
  induction samples as [|sample samples IH]; cbn.
  - split; [constructor|done].
  - unfold zero_valued at 1. rewrite Forall_cons.
    destruct (Sample.value sample =? 0)%float; cbn.
    + rewrite IH. tauto.
    + split; [done|]. by intros [? _].
Qed.

Lemma is_zero_sentinel_spec reading :
  Reading.is_zero_sentinel reading = true
  <-> Reading.reading_time reading = 0
      /\ Forall zero_valued (Reading.samples reading).
Proof.
  unfold Reading.is_zero_sentinel.
  rewrite andb_true_iff, negb_true_iff, Z.eqb_eq, any_nonzero_false. done.
Qed.

(** ** Single passes of the loop body *)

Lemma body_stale_raises {py} reading self latest :
  last (DataStore.readings self) = Some latest ->
  Reading.reading_time reading <= Reading.reading_time latest ->
  insert_body py reading self = (Raise NonMonotonicTimeError, self).
Proof.
  intros Hlast Hle. unfold_store_monad. cbn. rewrite Hlast.
  apply Z.leb_le in Hle. by rewrite Hle.
Qed.

Lemma body_no_capacity {py} reading capacity callbacks :
  capacity <= 0 ->
  insert_body py reading (DataStore.init capacity false callbacks)
  = (Raise (IndexError msg_del_empty),
     DataStore.init capacity false callbacks).
Proof.
  intros Hcap. unfold_store_monad. cbn. change (Z.of_nat 0) with 0.
  apply Z.leb_le in Hcap. by rewrite Hcap.
Qed.

Lemma reachable_no_capacity {py} is_valid capacity callbacks self :
  capacity <= 0 ->
  reachable py is_valid (DataStore.init capacity false callbacks) self ->
  self = DataStore.init capacity false callbacks.
Proof.
  intros Hcap.
  apply (reachable_preserves is_valid
           (fun self => self = DataStore.init capacity false callbacks));
    [|done].
  intros reading s _ ->. by rewrite body_no_capacity.
Qed.

(** ** Rejection of stale readings *)

(** C2, as stated, fails on the zero sentinel: the store holds a reading at
    time 5, the reading offered has time 0 <= 5 and only zero samples, and
    [insert] returns normally instead of raising. *)
Lemma stale_sentinel_is_not_rejected :
  DataStore.readings (store_at_5 Python3) <> []
  /\ max_timestamp (store_at_5 Python3) = Some 5
  /\ Reading.reading_time (reading_of_two 0 0 0) <= 5
  /\ DataStore.insert Python3 [reading_of_two 0 0 0] (store_at_5 Python3)
     = (Ok tt, store_at_5 Python3)
  /\ fst (DataStore.insert Python3 [reading_of_two 0 0 0] (store_at_5 Python3))
     <> Raise NonMonotonicTimeError.
Proof. split_and!; [done|reflexivity|cbn; lia|reflexivity|done]. Qed.

(** C2 (amended): in a non-empty store with ascending times, a reading that
    is not the zero sentinel and whose time is at most the store's largest
    time is rejected with the earlier-time exception and the store is left
    exactly as it was; in a batch, the store is left as the readings before
    the rejected one made it, and the rest of the batch is not inserted. *)
Theorem stale_reading_rejected {py} self reading newest_time :
  ordered self ->
  max_timestamp self = Some newest_time ->
  Reading.reading_time reading <= newest_time ->
  not_sentinel reading ->
  DataStore.insert py [reading] self = (Raise NonMonotonicTimeError, self)
  /\ forall start before after,
       DataStore.insert py before start = (Ok tt, self) ->
       DataStore.insert py (before ++ reading :: after) start
       = (Raise NonMonotonicTimeError, self).
Proof.
  intros Hordered Hmax Hle Hsentinel.
  unfold max_timestamp in Hmax. rewrite max_time_last in Hmax by done.
  unfold times in Hmax. rewrite last_map in Hmax.
  destruct (last (DataStore.readings self)) as [latest|] eqn:Hlast; [|done].
  injection Hmax as <-.
  assert (forall after, DataStore.insert py (reading :: after) self
                        = (Raise NonMonotonicTimeError, self)) as Hraise.
  { intros after. rewrite insert_cons, Hsentinel.
    by rewrite (body_stale_raises _ _ latest). }
  split; [apply Hraise|].
  intros start before after Hbefore. by rewrite insert_app, Hbefore.
Qed.

Lemma stale_reading_rejected_witness :
  ordered (store_at_5 Python3)
  /\ max_timestamp (store_at_5 Python3) = Some 5
  /\ Reading.reading_time (reading_of_two 3 1 1) <= 5
  /\ not_sentinel (reading_of_two 3 1 1)
  /\ DataStore.insert Python3 [reading_of_two 3 1 1] (store_at_5 Python3)
     = (Raise NonMonotonicTimeError, store_at_5 Python3).
Proof.
  assert (ordered (store_at_5 Python3)) as Hordered.
  { unfold ordered. vm_compute. repeat constructor. }
  split_and!; [exact Hordered|reflexivity|vm_compute; discriminate|reflexivity|].
  apply (stale_reading_rejected (store_at_5 Python3) (reading_of_two 3 1 1) 5);
    [exact Hordered|reflexivity|vm_compute; discriminate|reflexivity].
Defined.

(** ** The zero sentinel is skipped *)

(** C5: a reading with time 0 whose sample values all equal zero is skipped
    by [insert] whatever the store holds and whatever its callbacks are
    (also callbacks that would raise if called): the call returns normally
    and the store, capacity included, is the one before the call; in a
    batch the loop goes on with the next reading. *)
Theorem zero_sentinel_skipped {py} self reading :
  Reading.reading_time reading = 0 ->
  Forall zero_valued (Reading.samples reading) ->
  DataStore.insert py [reading] self = (Ok tt, self)
  /\ forall readings,
       DataStore.insert py (reading :: readings) self
       = DataStore.insert py readings self.
Proof.
  intros Htime Hzero.
  assert (Reading.is_zero_sentinel reading = true) as Hsentinel
    by by apply is_zero_sentinel_spec.
  split; [|intros readings]; by rewrite insert_cons, Hsentinel.
Qed.

Lemma zero_sentinel_skipped_witness :
  Reading.reading_time (reading_of_two 0 0 (-0)) = 0
  /\ Forall zero_valued (Reading.samples (reading_of_two 0 0 (-0)))
  /\ DataStore.insert Python3 [reading_of_two 0 0 (-0)] (store_at_5 Python3)
     = (Ok tt, store_at_5 Python3).
Proof.
  assert (Forall zero_valued (Reading.samples (reading_of_two 0 0 (-0))))
    as Hzero by (repeat constructor).
  split_and!; [reflexivity|exact Hzero|].
  apply (zero_sentinel_skipped (store_at_5 Python3) (reading_of_two 0 0 (-0)));
    [reflexivity|exact Hzero].
Defined.

(** ** A store without capacity *)

(** C10: a store built with a storage length of zero or less and without
    buffer growth stays empty, and inserting a reading that is not the zero
    sentinel raises the [IndexError] of deleting index 0 of the empty list,
    which is none of the failures the specification names; the store is
    left as it was. *)
Theorem no_capacity_insert_raises_index_error {py}
    is_valid capacity callbacks self reading :
  capacity <= 0 ->
  reachable py is_valid (DataStore.init capacity false callbacks) self ->
  not_sentinel reading ->
  DataStore.readings self = []
  /\ DataStore.insert py [reading] self
     = (Raise (IndexError msg_del_empty), self)
  /\ IndexError msg_del_empty
     ∉ [LengthMismatch; InvalidChannel; NonMonotonicTimeError;
        PayloadTooLargeError].
Proof.
  intros Hcap Hreach Hsentinel.
  apply reachable_no_capacity in Hreach as ->; [|done].
  split_and!; [done| |].
  - by rewrite insert_cons, Hsentinel, body_no_capacity.
  - rewrite !not_elem_of_cons. split_and!; try done. apply not_elem_of_nil.
Qed.

Lemma no_capacity_insert_raises_index_error_witness :
  0 <= 0
  /\ reachable Python3 sixteen_channels (DataStore.init 0 false [])
       (DataStore.init 0 false [])
  /\ not_sentinel (reading_at 1 0.5)
  /\ DataStore.insert Python3 [reading_at 1 0.5] (DataStore.init 0 false [])
     = (Raise (IndexError msg_del_empty), DataStore.init 0 false []).
Proof.
  split_and!; [lia|constructor|reflexivity|].
  apply (no_capacity_insert_raises_index_error sixteen_channels 0 []
           (DataStore.init 0 false []) (reading_at 1 0.5));
    [lia|constructor|reflexivity].
Defined.

(** ** The invariant of reachable stores *)

Lemma new_store_reaches_ordered {py} is_valid capacity grow callbacks self :
  reachable py is_valid (DataStore.init capacity grow callbacks) self ->
  ordered self.
Proof. apply reachable_ordered. constructor. Qed.

Lemma new_store_reaches_within_capacity {py}
    is_valid capacity grow callbacks self :
  0 <= capacity ->
  reachable py is_valid (DataStore.init capacity grow callbacks) self ->
  within_capacity self.
Proof.
  intros Hcap. apply reachable_within_capacity.
  unfold within_capacity. cbn. lia.
Qed.

(** C3, as stated, fails when the store is built with a negative storage
    length: with buffer growth, one insert into a store of length -1 grows
    the length to 0 and appends, so the store holds a reading more than
    its storage length. *)
Lemma negative_length_store_overflows :
  reachable Python3 sixteen_channels (DataStore.init (-1) true [])
    (after_inserts Python3 (DataStore.init (-1) true []) [[reading_at 1 0.5]])
  /\ length (DataStore.readings
       (after_inserts Python3 (DataStore.init (-1) true [])
          [[reading_at 1 0.5]])) = 1%nat
  /\ DataStore.reading_storage_length
       (after_inserts Python3 (DataStore.init (-1) true [])
          [[reading_at 1 0.5]]) = 0
  /\ ~ within_capacity
       (after_inserts Python3 (DataStore.init (-1) true [])
          [[reading_at 1 0.5]]).
Proof.
  split_and!; [apply reachable_after_inserts|reflexivity..|].
  vm_compute. by intros H.
Qed.

(** C3 (amended): in every store reachable from a new one by calls of
    [insert] and [insert_from_dict], raising or not, the reading times are
    strictly ascending, hence without duplicates; and if the store was built
    with a storage length of at least zero, the number of readings is at
    most the current storage length, with or without buffer growth. *)
Theorem reachable_store_invariant {py} is_valid capacity grow callbacks self :
  reachable py is_valid (DataStore.init capacity grow callbacks) self ->
  StronglySorted Z.lt (times self)
  /\ NoDup (times self)
  /\ (0 <= capacity -> within_capacity self).
Proof.
  intros Hreach.
  pose proof (new_store_reaches_ordered _ _ _ _ _ Hreach) as Hordered.
  split_and!; [done|by apply ascending_NoDup|].
  intros Hcap. by eapply new_store_reaches_within_capacity.
Qed.

Lemma reachable_store_invariant_witness :
  reachable Python3 sixteen_channels (DataStore.init 2 false [])
    (after_inserts Python3 (DataStore.init 2 false [])
       [[reading_at 1 0.5; reading_at 2 0.5]; [reading_at 2 0.5];
        [reading_at 3 0.5]])
  /\ times (after_inserts Python3 (DataStore.init 2 false [])
       [[reading_at 1 0.5; reading_at 2 0.5]; [reading_at 2 0.5];
        [reading_at 3 0.5]]) = [2; 3]
  /\ StronglySorted Z.lt [2; 3].
Proof.
  split_and!; [apply reachable_after_inserts|reflexivity|].
  apply (reachable_store_invariant (py:=Python3) sixteen_channels 2 false []
    (after_inserts Python3 (DataStore.init 2 false [])
       [[reading_at 1 0.5; reading_at 2 0.5]; [reading_at 2 0.5];
        [reading_at 3 0.5]])).
  apply reachable_after_inserts.
Defined.

(** ** Conversion functions that return the wrong number of values *)

Lemma write_back_values samples output :
  map Sample.value (Reading.write_back samples output)
  = take (length samples) output ++ drop (length output) (map Sample.value samples).
Proof.
  revert output. induction samples as [|sample samples IH]; intros [|v output];
    cbn; try done.
  by rewrite IH.
Qed.

(** C6, as stated, fails: a function that returns one value for a reading
    of two samples makes [apply_function] return normally, with the first
    sample overwritten and the second one left as it was. *)
Lemma short_output_is_written_back :
  length [9%float] <> length (Reading.values (reading_of_two 7 1 2))
  /\ Reading.apply_function (reading_of_two 7 1 2) (fun _ => Ok [9%float])
     = Ok (reading_of_two 7 9 2).
Proof. split; [cbn; lia|reflexivity]. Qed.

(** C6 (amended): whenever the function returns a list, of whatever
    length, [apply_function] returns normally; the values of the samples
    become the returned values as far as both lists go, followed by the old
    values of the samples beyond the returned list; time, channels and the
    channel of every sample stay as they were. *)
Theorem apply_function_writes_common_prefix reading function output :
  function (Reading.values reading) = Ok output ->
  exists reading',
    Reading.apply_function reading function = Ok reading'
    /\ Reading.reading_time reading' = Reading.reading_time reading
    /\ Reading.channels reading' = Reading.channels reading
    /\ map Sample.channel (Reading.samples reading')
       = map Sample.channel (Reading.samples reading)
    /\ Reading.values reading'
       = take (length (Reading.values reading)) output
         ++ drop (length output) (Reading.values reading).
Proof.
  intros Hout. unfold Reading.apply_function. rewrite Hout.
  eexists. split; [done|]. cbn. split_and!; [done..| |].
  - apply write_back_channels.
  - unfold Reading.values. cbn. by rewrite write_back_values, length_map.
Qed.

Lemma apply_function_writes_common_prefix_witness :
  exists reading',
    Reading.apply_function (reading_of_two 7 1 2)
      (fun values => Ok (values ++ [4%float])) = Ok reading'
    /\ Reading.reading_time reading' = 7
    /\ Reading.channels reading' = [1; 2]
    /\ map Sample.channel (Reading.samples reading') = [1; 2]
    /\ Reading.values reading' = [1%float; 2%float].
Proof.
  apply (apply_function_writes_common_prefix (reading_of_two 7 1 2)
           (fun values => Ok (values ++ [4%float])) [1%float; 2%float; 4%float]).
  reflexivity.
Defined.

(** ** [json_repr] *)

Lemma len_append (a b : string) : len (a ++ b) = len a + len b.
Proof.
  unfold len. induction a as [|c a IH]; cbn [String.append String.length].
  - lia.
  - lia.
Qed.

Lemma len_nonneg (a : string) : 0 <= len a.
Proof. unfold len. lia. Qed.

Section JsonReprFacts.
Variable py : interpreter.
Variable float_repr : float -> string.

Lemma py_gt_some (n m : Z) : py_gt py n (Some m) = Ok (m <? n).
Proof. reflexivity. Qed.

Lemma trim_loop_stuck json_readings max_bytes :
  py_gt py (len (Json.dumps float_repr (py_drop_last json_readings)))
        max_bytes = Ok true ->
  forall fuel json_encoded,
    py_gt py (len json_encoded) max_bytes = Ok true ->
    DataStore.trim_loop py float_repr fuel json_readings max_bytes
      json_encoded
    = None.
Proof.
  intros Hshorter fuel.
  induction fuel as [|fuel IH]; intros json_encoded Hlong; cbn; [done|].
  rewrite Hlong. by apply IH.
Qed.

(** With trimming enabled the call returns only if the whole list fits or
    the list without its last reading fits. *)
Lemma json_repr_stuck self max_bytes :
  py_gt py (len (Json.dumps float_repr
                   (map Reading.dict_repr (DataStore.readings self))))
        max_bytes = Ok true ->
  py_gt py (len (Json.dumps float_repr
                   (py_drop_last
                      (map Reading.dict_repr (DataStore.readings self)))))
        max_bytes = Ok true ->
  forall fuel,
    DataStore.json_repr py float_repr fuel self max_bytes true = None.
Proof.
  intros Hall Hshorter fuel. unfold DataStore.json_repr. cbn zeta.
  rewrite Hall. by rewrite trim_loop_stuck.
Qed.

Lemma json_repr_fits self max_bytes trim fuel :
  py_gt py (len (Json.dumps float_repr
                   (map Reading.dict_repr (DataStore.readings self))))
        max_bytes = Ok false ->
  DataStore.json_repr py float_repr fuel self max_bytes trim
  = Some (Ok (Json.dumps float_repr
                (map Reading.dict_repr (DataStore.readings self)))).
Proof. intros Hfits. unfold DataStore.json_repr. cbn zeta. by rewrite Hfits. Qed.

Lemma json_repr_trims_once self max_bytes fuel :
  py_gt py (len (Json.dumps float_repr
                   (map Reading.dict_repr (DataStore.readings self))))
        max_bytes = Ok true ->
  py_gt py (len (Json.dumps float_repr
                   (py_drop_last
                      (map Reading.dict_repr (DataStore.readings self)))))
        max_bytes = Ok false ->
  DataStore.json_repr py float_repr (S (S fuel)) self max_bytes true
  = Some (Ok (Json.dumps float_repr
                (py_drop_last
                   (map Reading.dict_repr (DataStore.readings self))))).
Proof.
  intros Hall Hshorter. unfold DataStore.json_repr. cbn zeta.
  rewrite Hall. cbn [DataStore.trim_loop]. by rewrite Hall, Hshorter.
Qed.

Lemma json_repr_untrimmed_raises self max_bytes fuel :
  py_gt py (len (Json.dumps float_repr
                   (map Reading.dict_repr (DataStore.readings self))))
        max_bytes = Ok true ->
  DataStore.json_repr py float_repr fuel self max_bytes false
  = Some (Raise PayloadTooLargeError).
Proof. intros Hall. unfold DataStore.json_repr. cbn zeta. by rewrite Hall. Qed.

Lemma len_join_cons sep part parts :
  len part <= len (join sep (part :: parts)).
Proof.
  destruct parts as [|part' parts]; [cbn [join]; lia|].
  change (join sep (part :: part' :: parts))
    with (part ++ sep ++ join sep (part' :: parts))%string.
  rewrite !len_append.
  pose proof (len_nonneg sep). pose proof (len_nonneg (join sep (part' :: parts))).
  lia.
Qed.

Lemma len_dumps_list items : 2 <= len (Json.dumps_list items).
Proof.
  unfold Json.dumps_list. rewrite !len_append.
  pose proof (len_nonneg (join ", " items)).
  change (len "[") with 1. change (len "]") with 1. lia.
Qed.

(** Every encoded reading takes at least 49 characters. *)
Lemma len_dumps_reading d : 49 <= len (Json.dumps_reading float_repr d).
Proof.
  unfold Json.dumps_reading, Json.key. rewrite !len_append.
  pose proof (len_nonneg (str_int (Reading.k_reading_time d))).
  pose proof (len_dumps_list (map str_int (Reading.k_channels d))).
  pose proof (len_dumps_list
                (map (Json.dumps_sample float_repr) (Reading.k_samples d))).
  change (len dquote) with 1. change (len ": ") with 2.
  change (len ", ") with 2. change (len "{") with 1. change (len "}") with 1.
  change (len "reading_time") with 12. change (len "channels") with 8.
  change (len "samples") with 7. lia.
Qed.

Lemma len_dumps_cons d ds : 51 <= len (Json.dumps float_repr (d :: ds)).
Proof.
  unfold Json.dumps, Json.dumps_list. cbn [map]. rewrite !len_append.
  pose proof (len_join_cons ", " (Json.dumps_reading float_repr d)
                (map (Json.dumps_reading float_repr) ds)).
  pose proof (len_dumps_reading d).
  change (len "[") with 1. change (len "]") with 1. lia.
Qed.

Lemma len_dumps_nil : len (Json.dumps float_repr []) = 2.
Proof. reflexivity. Qed.

(** Trimming never returns for a store of two or more readings when the
    bound is below the shortest encoding of one reading. *)
Lemma json_repr_stuck_on_two self first second others max_bytes :
  DataStore.readings self = first :: second :: others ->
  max_bytes < 51 ->
  forall fuel,
    DataStore.json_repr py float_repr fuel self (Some max_bytes) true = None.
Proof.
  intros Hrs Hmax. apply json_repr_stuck; rewrite Hrs, py_gt_some; f_equal;
    cbn [map].
  - apply Z.ltb_lt. pose proof (len_dumps_cons (Reading.dict_repr first)
      (map Reading.dict_repr (second :: others))). cbn [map] in *. lia.
  - unfold py_drop_last.
    change (removelast (?a :: ?b :: ?l)) with (a :: removelast (b :: l)).
    apply Z.ltb_lt.
    pose proof (len_dumps_cons (Reading.dict_repr first)
      (removelast (Reading.dict_repr second :: map Reading.dict_repr others))).
    lia.
Qed.

(** Nor does it return for any store when the bound is below 2, the
    length of the encoding of the empty list. *)
Lemma json_repr_stuck_below_two self max_bytes :
  max_bytes < 2 ->
  forall fuel,
    DataStore.json_repr py float_repr fuel self (Some max_bytes) true = None.
Proof.
  intros Hmax.
  assert (forall ds, py_gt py (len (Json.dumps float_repr ds)) (Some max_bytes)
                     = Ok true) as Hlong.
  { intros ds. rewrite py_gt_some. f_equal. apply Z.ltb_lt.
    pose proof (len_dumps_list (map (Json.dumps_reading float_repr) ds)).
    unfold Json.dumps. lia. }
  by apply json_repr_stuck.
Qed.

End JsonReprFacts.

(** C1 at its failing input.  The store holds readings at times 1 and 3;
    the bound 10 is below the encoding of either reading and above that of
    the empty list; yet [json_repr] with trimming returns for no amount of
    fuel, whatever the text of a float is: its loop encodes the list
    without the last reading again and again. *)
Theorem json_repr_trim_of_two_never_returns {py}
    (float_repr : float -> string) (fuel : nat) :
  Forall (fun reading =>
            10 < len (Json.dumps float_repr [Reading.dict_repr reading]))
         (DataStore.readings (store_of_two py))
  /\ len (Json.dumps float_repr []) <= 10
  /\ DataStore.json_repr py float_repr fuel (store_of_two py) (Some 10) true
     = None.
Proof.
  split_and!.
  - apply Forall_forall. intros reading _.
    pose proof (len_dumps_cons float_repr (Reading.dict_repr reading) []). lia.
  - rewrite len_dumps_nil. lia.
  - apply (json_repr_stuck_on_two py float_repr (store_of_two py)
             (reading_at 1 0.5) (reading_at 3 0.5) []); [|done].
    by destruct py.
Qed.

(** Without [max_bytes] on Python 2: the comparison with [None] holds for
    every text, so with trimming (the default) the loop is entered and
    never left; with trimming disabled the call raises. *)
Lemma json_repr_without_max_bytes_on_python2
    (float_repr : float -> string) (fuel : nat) (self : DataStore.t) :
  DataStore.json_repr Python2 float_repr fuel self None true = None
  /\ DataStore.json_repr Python2 float_repr fuel self None false
     = Some (Raise PayloadTooLargeError).
Proof.
  split.
  - by apply json_repr_stuck.
  - by apply json_repr_untrimmed_raises.
Qed.


(** ** Inserting ascending readings into an evicting store *)

Lemma newest_all {A} (n : nat) (l : list A) :
  (length l <= n)%nat -> newest n l = l.
Proof. intros Hlen. unfold newest. by replace (length l - n)%nat with 0%nat by lia. Qed.

Lemma newest_length {A} (n : nat) (l : list A) :
  (length (newest n l) <= n)%nat.
Proof. unfold newest. rewrite length_drop. lia. Qed.

Lemma newest_newest_app {A} (n : nat) (a b : list A) :
  newest n (newest n a ++ b) = newest n (a ++ b).
Proof.
  unfold newest. rewrite !length_app, length_drop.
  destruct (decide (length a <= n)%nat) as [Hle|Hgt].
  - replace (length a - n)%nat with 0%nat by lia.
    rewrite drop_0. f_equal. lia.
  - rewrite (drop_app _ _ (length a + length b - n)).
    rewrite drop_app, length_drop, drop_drop.
    f_equal; f_equal; lia.
Qed.

Lemma ascending_drop (ts later : list Z) (n : nat) :
  StronglySorted Z.lt (ts ++ later) -> StronglySorted Z.lt (drop n ts ++ later).
Proof.
  rewrite <- (take_drop n ts) at 1. rewrite <- app_assoc.
  apply StronglySorted_app_1_r.
Qed.

Lemma ascending_fresher self reading (later : list Z) :
  StronglySorted Z.lt (times self ++ Reading.reading_time reading :: later) ->
  fresher reading self.
Proof.
  intros Hsorted latest Hlast.
  apply StronglySorted_app in Hsorted as (Hcross & _ & _).
  apply Hcross; [|by left].
  apply last_Some_elem_of in Hlast. unfold times.
  apply list_elem_of_In, in_map, list_elem_of_In, Hlast.
Qed.

Lemma with_readings_same self : with_readings self (DataStore.readings self) = self.
Proof. by destruct self. Qed.

Lemma body_evicting {py} (C : nat) self reading converted :
  DataStore.increase_buffer self = false ->
  DataStore.reading_storage_length self = Z.of_nat C ->
  (1 <= C)%nat ->
  (length (DataStore.readings self) <= C)%nat ->
  fresher reading self ->
  DataStore.apply_callbacks py reading (DataStore.conversion_callbacks self)
    = Ok converted ->
  insert_body py reading self
  = (Ok tt, with_readings self
              (newest C (DataStore.readings self ++ [converted]))).
Proof.
  intros Hgrow Hcap HC Hlen Hfresh Hcb.
  destruct (insert_body_outcome py reading self)
    as [latest Hlast Hle|_ Hzero _ _|rs cap e _ Hraise
       |rs cap converted' Hroom Hcb'].
  - specialize (Hfresh latest Hlast). lia.
  - lia.
  - congruence.
  - assert (converted' = converted) as -> by congruence.
    unfold with_readings.
    destruct Hroom as [_ Hfree|_ _ Hgrown|oldest rest _ Hfull _ Hrs].
    + rewrite newest_all; [done|]. rewrite length_app. cbn. lia.
    + congruence.
    + rewrite Hrs in *. cbn [length] in *.
      unfold newest. cbn [app]. rewrite length_cons, length_app. cbn [length].
      by replace (S (length rest + 1) - C)%nat with 1%nat by lia.
Qed.

Lemma insert_evicting {py} (C : nat) : forall readings converted self,
  DataStore.increase_buffer self = false ->
  DataStore.reading_storage_length self = Z.of_nat C ->
  (1 <= C)%nat ->
  (length (DataStore.readings self) <= C)%nat ->
  StronglySorted Z.lt (times self ++ map Reading.reading_time readings) ->
  Forall not_sentinel readings ->
  Forall2 (fun reading reading' =>
             DataStore.apply_callbacks py reading
               (DataStore.conversion_callbacks self) = Ok reading')
          readings converted ->
  DataStore.insert py readings self
  = (Ok tt, with_readings self
              (newest C (DataStore.readings self ++ converted))).
Proof.
  induction readings as [|reading readings IH];
    intros converted self Hgrow Hcap HC Hlen Hsorted Hsentinel Hconverted.
  - apply Forall2_nil_inv_l in Hconverted as ->.
    rewrite app_nil_r, newest_all, with_readings_same; done.
  - apply Forall2_cons_inv_l in Hconverted
      as (reading' & converted' & Hcb & Hconverted' & ->).
    apply Forall_cons in Hsentinel as [Hsentinel Hsentinel'].
    rewrite insert_cons, Hsentinel.
    rewrite (body_evicting C _ _ reading'); try done;
      [|by eapply ascending_fresher].
    rewrite (IH converted'); try done.
    + unfold with_readings.
      cbn [DataStore.readings DataStore.reading_storage_length
           DataStore.increase_buffer DataStore.conversion_callbacks].
      by rewrite newest_newest_app, <- app_assoc.
    + apply newest_length.
    + unfold times at 1, with_readings. cbn [DataStore.readings].
      unfold newest. rewrite <- skipn_map, map_app. cbn [map].
      apply apply_callbacks_frame in Hcb as (-> & _).
      apply ascending_drop. by rewrite <- app_assoc.
Qed.

Lemma one_at_a_time_of_batch {py} : forall readings self self',
  DataStore.insert py readings self = (Ok tt, self') ->
  insert_one_at_a_time py readings self
  = (repeat (Ok tt) (length readings), self').
Proof.
  induction readings as [|reading readings IH]; intros self self'.
  - cbn. by intros [= <-].
  - rewrite insert_cons. cbn [insert_one_at_a_time]. rewrite insert_cons.
    destruct (Reading.is_zero_sentinel reading).
    + rewrite insert_nil. intros Hrest. by rewrite (IH _ _ Hrest).
    + destruct (insert_body py reading self) as [[[]|e] self1]; [|done].
      rewrite insert_nil. intros Hrest. by rewrite (IH _ _ Hrest).
Qed.

(** C4: a new store of capacity [C >= 1] without buffer growth receives
    [C + k] readings, [k > 0], one call at a time, with strictly ascending
    times, none the zero sentinel, converted by the store's callbacks
    without a raise.  Every call returns normally and the store ends up
    with capacity [C] and exactly the [C] most recent readings, converted,
    in the order they were inserted: the first [k] are gone. *)
Theorem evicting_store_keeps_newest {py}
    (C k : nat) callbacks readings converted :
  (1 <= C)%nat ->
  (0 < k)%nat ->
  length readings = (C + k)%nat ->
  StronglySorted Z.lt (map Reading.reading_time readings) ->
  Forall not_sentinel readings ->
  Forall2 (fun reading reading' =>
             DataStore.apply_callbacks py reading callbacks = Ok reading')
          readings converted ->
  insert_one_at_a_time py readings (DataStore.init (Z.of_nat C) false callbacks)
  = (repeat (Ok tt) (C + k),
     DataStore.mk (Z.of_nat C) false callbacks (drop k converted))
  /\ length (drop k converted) = C.
Proof.
  intros HC Hk Hlen Hsorted Hsentinel Hconverted.
  pose proof (Forall2_length _ _ _ Hconverted) as Hlen'.
  split; [|rewrite length_drop; lia].
  rewrite <- Hlen. apply one_at_a_time_of_batch.
  rewrite (insert_evicting C readings converted); try done; [|cbn; lia].
  unfold with_readings, newest. cbn.
  do 3 f_equal. lia.
Qed.

Lemma evicting_store_keeps_newest_witness :
  insert_one_at_a_time Python3
    [reading_at 1 0.5; reading_at 2 0.5; reading_at 3 0.5; reading_at 4 0.5]
    (DataStore.init 3 false [])
  = ([Ok tt; Ok tt; Ok tt; Ok tt],
     DataStore.mk 3 false []
       [reading_at 2 0.5; reading_at 3 0.5; reading_at 4 0.5])
  /\ length [reading_at 2 0.5; reading_at 3 0.5; reading_at 4 0.5] = 3%nat.
Proof.
  apply (evicting_store_keeps_newest 3 1 []
    [reading_at 1 0.5; reading_at 2 0.5; reading_at 3 0.5; reading_at 4 0.5]
    [reading_at 1 0.5; reading_at 2 0.5; reading_at 3 0.5; reading_at 4 0.5]).
  - lia.
  - lia.
  - reflexivity.
  - cbn. repeat constructor; lia.
  - repeat constructor.
  - repeat constructor.
Defined.

(** ** Building a store from readings that are already in order *)

Lemma no_callbacks_convert {py} (readings : list Reading.t) :
  Forall2 (fun reading reading' =>
             DataStore.apply_callbacks py reading [] = Ok reading')
          readings readings.
Proof.
  induction readings; constructor; [apply apply_callbacks_none|done].
Qed.

Lemma insert_into_new {py} capacity readings :
  StronglySorted Z.lt (map Reading.reading_time readings) ->
  Forall not_sentinel readings ->
  Z.of_nat (length readings) <= capacity ->
  DataStore.insert py readings (DataStore.init capacity false [])
  = (Ok tt, DataStore.mk capacity false [] readings).
Proof.
  intros Hsorted Hsentinel Hlen.
  destruct readings as [|reading readings]; [done|].
  rewrite (insert_evicting (Z.to_nat capacity) _ (reading :: readings));
    cbn [DataStore.init DataStore.readings DataStore.increase_buffer
         DataStore.reading_storage_length DataStore.conversion_callbacks
         length] in *; try done; try lia.
  - unfold with_readings. cbn [DataStore.readings app].
    rewrite newest_all; [done|]. cbn [length]. lia.
  - apply no_callbacks_convert.
Qed.

Lemma ascending_filter (keep : Reading.t -> bool) (readings : list Reading.t) :
  StronglySorted Z.lt (map Reading.reading_time readings) ->
  StronglySorted Z.lt (map Reading.reading_time (List.filter keep readings)).
Proof.
  induction readings as [|reading readings IH]; cbn; [done|].
  intros [Hall Hsorted]%StronglySorted_cons.
  destruct (keep reading); cbn; [|by apply IH].
  apply StronglySorted_cons. split; [|by apply IH].
  rewrite Forall_forall in Hall |- *. intros t Hin. apply Hall.
  apply list_elem_of_In, in_map_iff in Hin as (r & <- & Hin).
  apply filter_In in Hin as [Hin _].
  by apply list_elem_of_In, in_map.
Qed.

Lemma Forall_list_filter {A} (P : A -> Prop) (keep : A -> bool) (l : list A) :
  Forall P l -> Forall P (List.filter keep l).
Proof.
  induction 1 as [|x l HP _ IH]; cbn; [constructor|].
  destruct (keep x); [by constructor|done].
Qed.

Lemma length_list_filter {A} (keep : A -> bool) (l : list A) :
  (length (List.filter keep l) <= length l)%nat.
Proof. induction l as [|x l IH]; cbn; [lia|]. destruct (keep x); cbn; lia. Qed.

Lemma list_filter_none {A} (keep : A -> bool) (l : list A) :
  Forall (fun x => keep x = false) l -> List.filter keep l = [].
Proof. induction 1 as [|x l Hx _ IH]; cbn; [done|]. by rewrite Hx. Qed.

Lemma list_filter_all {A} (keep : A -> bool) (l : list A) :
  Forall (fun x => keep x = true) l -> List.filter keep l = l.
Proof. induction 1 as [|x l Hx _ IH]; cbn; [done|]. by rewrite Hx, IH. Qed.

(** In an ascending list the readings up to a time come first and those
    after it follow, so the two filters cut the list in two. *)
Lemma split_at_time (timestamp : Z) (readings : list Reading.t) :
  StronglySorted Z.lt (map Reading.reading_time readings) ->
  List.filter (fun reading => Reading.reading_time reading <=? timestamp) readings
  ++ List.filter (fun reading => timestamp <? Reading.reading_time reading) readings
  = readings.
Proof.
  induction readings as [|reading readings IH]; cbn; [done|].
  intros [Hall Hsorted]%StronglySorted_cons.
  destruct (Z.leb_spec (Reading.reading_time reading) timestamp) as [Hle|Hgt].
  - replace (timestamp <? Reading.reading_time reading) with false
      by (symmetry; apply Z.ltb_ge; lia).
    cbn. by rewrite IH.
  - replace (timestamp <? Reading.reading_time reading) with true
      by (symmetry; apply Z.ltb_lt; lia).
    assert (Forall (fun later => timestamp < Reading.reading_time later) readings)
      as Hlater.
    { rewrite Forall_forall in Hall. apply Forall_forall. intros later Hin.
      assert (Reading.reading_time reading < Reading.reading_time later);
        [|lia].
      by apply Hall, list_elem_of_In, in_map, list_elem_of_In. }
    rewrite list_filter_none, list_filter_all; [done| |].
    + eapply Forall_impl; [done|]. intros later Hlt. cbn in Hlt |- *.
      apply Z.ltb_lt. lia.
    + eapply Forall_impl; [done|]. intros later Hlt. cbn in Hlt |- *.
      apply Z.leb_gt. lia.
Qed.

Lemma instance_with_readings_in_order {py} self readings :
  StronglySorted Z.lt (map Reading.reading_time readings) ->
  Forall not_sentinel readings ->
  Z.of_nat (length readings) <= DataStore.reading_storage_length self ->
  DataStore.instance_with_readings py self readings
  = Ok (DataStore.mk (DataStore.reading_storage_length self) false []
          readings).
Proof.
  intros Hsorted Hsentinel Hlen.
  unfold DataStore.instance_with_readings, DataStore.returning,
    DataStore.default_increase_buffer, DataStore.default_conversion_callbacks.
  by rewrite insert_into_new.
Qed.

(** ** Range queries *)

(** C8, as stated, fails for a store built with a negative storage length:
    after one insert with buffer growth the store holds a reading and has
    storage length 0; the time 0 is not a stored reading time, and
    [find_readings_after] raises [IndexError] when the new store, which
    has the same storage length and no buffer growth, is filled. *)
Lemma find_readings_after_raises :
  reachable Python3 sixteen_channels (DataStore.init (-1) true [])
    (store_grown_from_negative Python3)
  /\ times (store_grown_from_negative Python3) = [1]
  /\ ~ 0 ∈ times (store_grown_from_negative Python3)
  /\ DataStore.find_readings_after Python3 (store_grown_from_negative Python3) 0
     = Raise (IndexError msg_del_empty).
Proof.
  split_and!; [apply reachable_after_inserts|reflexivity| |reflexivity].
  change (times (store_grown_from_negative Python3)) with [1].
  intros Hin%list_elem_of_singleton. discriminate.
Qed.

(** A stored reading that looks like the zero sentinel after conversion
    (Python 2) is lost by the queries as well: the new store skips it. *)
Lemma find_readings_before_skips_zeroed :
  reachable Python2 sixteen_channels (DataStore.init 2 false [zeroing])
    store_of_zeroed
  /\ DataStore.readings store_of_zeroed = [reading_at 0 0]
  /\ DataStore.find_readings_before Python2 store_of_zeroed 5
     = Ok (DataStore.init 2 false []).
Proof. split_and!; [apply reachable_after_inserts|reflexivity..]. Qed.

Lemma find_readings_in_order {py} self timestamp :
  ordered self ->
  within_capacity self ->
  Forall not_sentinel (DataStore.readings self) ->
  DataStore.find_readings_after py self timestamp
  = Ok (DataStore.mk (DataStore.reading_storage_length self) false []
          (List.filter
             (fun reading => timestamp <? Reading.reading_time reading)
             (DataStore.readings self)))
  /\ DataStore.find_readings_before py self timestamp
     = Ok (DataStore.mk (DataStore.reading_storage_length self) false []
             (List.filter
                (fun reading => Reading.reading_time reading <=? timestamp)
                (DataStore.readings self))).
Proof.
  intros Hordered Hwithin Hsentinel.
  unfold DataStore.find_readings_after, DataStore.find_readings_before.
  split; apply instance_with_readings_in_order;
    try (by apply ascending_filter);
    try (by apply Forall_list_filter);
    (etrans; [|apply Hwithin]);
    apply inj_le, length_list_filter.
Qed.

(** C8 (amended): let the store be reachable from a new store built with a
    storage length of at least zero, and let it hold no reading that has
    time 0 and only zero values (none can get in without conversion
    callbacks).  Then for every time [t] that is no stored reading time,
    [find_readings_after] and [find_readings_before] return new stores with
    the storage length of the original, no buffer growth and no callbacks;
    the first holds the readings with time greater than [t], the second
    those with time at most [t], each in the original order, and the second
    list followed by the first is the original list of readings. *)
Theorem find_readings_split {py} is_valid capacity grow callbacks self timestamp :
  0 <= capacity ->
  reachable py is_valid (DataStore.init capacity grow callbacks) self ->
  Forall not_sentinel (DataStore.readings self) ->
  timestamp ∉ times self ->
  exists after before,
    DataStore.find_readings_after py self timestamp
    = Ok (DataStore.mk (DataStore.reading_storage_length self) false [] after)
    /\ DataStore.find_readings_before py self timestamp
       = Ok (DataStore.mk (DataStore.reading_storage_length self) false []
               before)
    /\ after = List.filter
                 (fun reading => timestamp <? Reading.reading_time reading)
                 (DataStore.readings self)
    /\ before = List.filter
                  (fun reading => Reading.reading_time reading <=? timestamp)
                  (DataStore.readings self)
    /\ before ++ after = DataStore.readings self.
Proof.
  intros Hcap Hreach Hsentinel _.
  pose proof (new_store_reaches_ordered _ _ _ _ _ Hreach) as Hordered.
  pose proof (new_store_reaches_within_capacity _ _ _ _ _ Hcap Hreach)
    as Hwithin.
  destruct (find_readings_in_order (py:=py) self timestamp Hordered Hwithin Hsentinel)
    as [Hafter Hbefore].
  eexists _, _. split_and!; [done..|].
  by apply split_at_time.
Qed.

Lemma find_readings_split_witness :
  exists after before,
    DataStore.find_readings_after Python3 (store_of_two Python3) 2
    = Ok (DataStore.mk 3 false [] after)
    /\ DataStore.find_readings_before Python3 (store_of_two Python3) 2
       = Ok (DataStore.mk 3 false [] before)
    /\ after = [reading_at 3 0.5]
    /\ before = [reading_at 1 0.5]
    /\ before ++ after = [reading_at 1 0.5; reading_at 3 0.5].
Proof.
  apply (find_readings_split sixteen_channels 3 false [] (store_of_two Python3) 2).
  - lia.
  - apply reachable_after_inserts.
  - repeat constructor.
  - change (times (store_of_two Python3)) with [1; 3]. intros Hin.
    apply elem_of_cons in Hin as [Hin|Hin]; [discriminate|].
    apply list_elem_of_singleton in Hin. discriminate.
Defined.

(** ** Without callbacks no stored reading looks like the sentinel *)

Lemma room_sublist reading self rs cap :
  room reading self rs cap ->
  forall stored, stored ∈ rs -> stored ∈ DataStore.readings self.
Proof.
  intros [| |oldest rest _ _ _ Hrs] stored Hin; [done..|].
  rewrite Hrs. by right.
Qed.

Lemma body_no_sentinel {py} reading self :
  not_sentinel reading ->
  DataStore.conversion_callbacks self = [] ->
  Forall not_sentinel (DataStore.readings self) ->
  Forall not_sentinel (DataStore.readings (snd (insert_body py reading self))).
Proof.
  intros Hreading Hcallbacks Hstored.
  destruct (insert_body_outcome py reading self)
    as [| |rs cap e Hroom _|rs cap converted Hroom Hcb];
    cbn [snd DataStore.readings]; try done.
  - rewrite Forall_forall in Hstored. apply Forall_forall.
    intros stored Hin. by eapply Hstored, room_sublist.
  - rewrite Hcallbacks, apply_callbacks_none in Hcb. injection Hcb as <-.
    apply Forall_app. split; [|by repeat constructor].
    rewrite Forall_forall in Hstored. apply Forall_forall.
    intros stored Hin. by eapply Hstored, room_sublist.
Qed.

Lemma reachable_no_sentinel {py} is_valid capacity grow self :
  reachable py is_valid (DataStore.init capacity grow []) self ->
  Forall not_sentinel (DataStore.readings self).
Proof.
  intros Hreach.
  pose proof (reachable_settings _ _ _ Hreach) as [_ Hcallbacks].
  revert Hreach.
  apply (reachable_preserves is_valid (fun self =>
    DataStore.conversion_callbacks self = []
    /\ Forall not_sentinel (DataStore.readings self))).
  - intros reading s Hreading [Hcb Hstored]. split.
    + by rewrite (proj2 (body_settings py reading s)).
    + by apply body_no_sentinel.
  - split; [done|constructor].
Qed.

(** ** From the dictionary form back to readings *)

Lemma build_samples_again is_valid : forall channels values samples,
  Reading.build_samples is_valid channels values = Ok samples ->
  length channels = length values ->
  Reading.build_samples is_valid channels (map Sample.value samples)
  = Ok samples
  /\ length samples = length channels.
Proof.
  induction channels as [|channel channels IH];
    intros [|value values] samples; cbn; try done.
  - by intros [= <-].
  - unfold Sample.init.
    destruct (is_valid channel) eqn:Hvalid; [|done].
    destruct (Reading.build_samples is_valid channels values)
      as [samples'|] eqn:Hbuild; [|done].
    intros [= <-] [= Hlen]. cbn.
    by destruct (IH _ _ Hbuild Hlen) as [-> ->].
Qed.

Lemma len_is_not_false (n m : nat) :
  len_is_not n m = false <-> n = m /\ (n <= 256)%nat.
Proof.
  unfold len_is_not.
  rewrite negb_false_iff, andb_true_iff, Nat.eqb_eq, Nat.leb_le. done.
Qed.

Lemma init_of_dict_repr is_valid reading :
  built is_valid reading ->
  Reading.init is_valid
    (Reading.k_reading_time (Reading.dict_repr reading))
    (Reading.k_channels (Reading.dict_repr reading))
    (map Sample.k_value (Reading.k_samples (Reading.dict_repr reading)))
  = Ok reading.
Proof.
  intros (reading_time & channels & values & Hinit).
  unfold Reading.init in Hinit.
  destruct (len_is_not (length channels) (length values)) eqn:Hnot; [done|].
  apply len_is_not_false in Hnot as [Hlen Hsmall].
  destruct (Reading.build_samples is_valid channels values)
    as [samples|] eqn:Hbuild; [|done].
  injection Hinit as <-.
  destruct (build_samples_again _ _ _ _ Hbuild Hlen) as [Hagain Hlen'].
  unfold Reading.init, Reading.dict_repr.
  cbn [Reading.k_reading_time Reading.k_channels Reading.k_samples
       Reading.reading_time Reading.channels Reading.samples].
  rewrite map_map. cbn [Sample.dict_repr Sample.k_value].
  rewrite length_map, Hlen'.
  rewrite (proj2 (len_is_not_false _ _)) by done.
  change (map (fun x => Sample.value x) samples) with (map Sample.value samples).
  by rewrite Hagain.
Qed.

Lemma readings_of_rows_of_dict_repr is_valid readings :
  Forall (built is_valid) readings ->
  DataStore.readings_of_rows is_valid (map Reading.dict_repr readings)
  = Ok readings.
Proof.
  induction 1 as [|reading readings Hbuilt _ IH]; [done|].
  cbn [map DataStore.readings_of_rows].
  by rewrite init_of_dict_repr, IH.
Qed.

(** ** Round trip through the dictionary form *)

(** C9: for a store without conversion callbacks, reachable from a new
    store by calls of [insert] and [insert_from_dict] and holding readings
    built by [Reading]'s constructor, [instance_from_dict] applied to the
    list of the readings' [dict_repr] returns a store whose list of
    readings equals the original list: as many readings and at every
    position the same time, channels and sample values. *)
Theorem dict_repr_round_trip {py} is_valid capacity grow self :
  reachable py is_valid (DataStore.init capacity grow []) self ->
  Forall (built is_valid) (DataStore.readings self) ->
  exists reloaded,
    DataStore.instance_from_dict py is_valid
      (map Reading.dict_repr (DataStore.readings self))
      DataStore.default_increase_buffer DataStore.default_conversion_callbacks
    = Ok reloaded
    /\ DataStore.readings reloaded = DataStore.readings self
    /\ length (DataStore.readings reloaded) = length (DataStore.readings self)
    /\ Forall2 (fun reading reading' =>
                  Reading.reading_time reading' = Reading.reading_time reading
                  /\ Reading.channels reading' = Reading.channels reading
                  /\ Reading.values reading' = Reading.values reading)
               (DataStore.readings self) (DataStore.readings reloaded).
Proof.
  intros Hreach Hbuilt.
  pose proof (new_store_reaches_ordered _ _ _ _ _ Hreach) as Hordered.
  pose proof (reachable_no_sentinel _ _ _ _ Hreach) as Hsentinel.
  exists (DataStore.mk (Z.of_nat (length (DataStore.readings self))) false []
            (DataStore.readings self)).
  split_and!; [|done..|].
  - unfold DataStore.instance_from_dict, DataStore.returning.
    unfold_store_monad.
    rewrite readings_of_rows_of_dict_repr by done.
    rewrite length_map.
    unfold DataStore.default_increase_buffer,
      DataStore.default_conversion_callbacks.
    by rewrite insert_into_new.
  - cbn [DataStore.readings]. clear.
    induction (DataStore.readings self); by constructor.
Qed.

Lemma dict_repr_round_trip_witness :
  exists reloaded,
    DataStore.instance_from_dict Python3 sixteen_channels
      (map Reading.dict_repr (DataStore.readings (store_of_two Python3))) false []
    = Ok reloaded
    /\ DataStore.readings reloaded = DataStore.readings (store_of_two Python3)
    /\ length (DataStore.readings reloaded) = 2%nat
    /\ Forall2 (fun reading reading' =>
                  Reading.reading_time reading' = Reading.reading_time reading
                  /\ Reading.channels reading' = Reading.channels reading
                  /\ Reading.values reading' = Reading.values reading)
               (DataStore.readings (store_of_two Python3)) (DataStore.readings reloaded).
Proof.
  apply (dict_repr_round_trip sixteen_channels 3 false (store_of_two Python3)).
  - apply reachable_after_inserts.
  - repeat constructor.
    + by exists 1, [1], [0.5%float].
    + by exists 3, [1], [0.5%float].
Defined.


(** * Further properties of the module *)

(** ** Construction of a reading *)

Lemma build_samples_valid is_valid : forall channels values,
  length channels = length values ->
  Forall (fun channel => is_valid channel = true) channels ->
  Reading.build_samples is_valid channels values
  = Ok (zip_with Sample.mk channels values).
Proof.
  induction channels as [|channel channels IH]; intros [|value values];
    cbn; try done.
  intros [= Hlen] [Hvalid Hrest]%Forall_cons.
  unfold Sample.init. by rewrite Hvalid, IH.
Qed.

Lemma build_samples_invalid is_valid : forall channels values,
  length channels = length values ->
  Exists (fun channel => is_valid channel = false) channels ->
  Reading.build_samples is_valid channels values = Raise InvalidChannel.
Proof.
  induction channels as [|channel channels IH]; intros [|value values];
    cbn; try done.
  - by intros _ ?%Exists_nil.
  - intros [= Hlen] Hexists. unfold Sample.init.
    destruct (is_valid channel) eqn:Hvalid; [|done].
    apply Exists_cons in Hexists as [Hbad|Hexists]; [congruence|].
    by rewrite IH.
Qed.

(** X1: [Reading.__init__] raises the length exception whenever the two
    lists differ in length, whatever the channels are, and also whenever
    they are longer than 256 (the two lengths are then never the same
    object, which is what the source tests).  With equal lengths of at
    most 256 it raises [ValueError] if some channel is invalid; otherwise
    it returns the reading with the given time and channels and one sample
    per pair of channel and value, in order. *)
Theorem reading_init_outcome is_valid reading_time channels values :
  (length channels <> length values \/ (256 < length channels)%nat ->
   Reading.init is_valid reading_time channels values = Raise LengthMismatch)
  /\ (length channels = length values ->
      (length channels <= 256)%nat ->
      Exists (fun channel => is_valid channel = false) channels ->
      Reading.init is_valid reading_time channels values
      = Raise InvalidChannel)
  /\ (length channels = length values ->
      (length channels <= 256)%nat ->
      Forall (fun channel => is_valid channel = true) channels ->
      Reading.init is_valid reading_time channels values
      = Ok (Reading.mk reading_time channels
              (zip_with Sample.mk channels values))).
Proof.
  unfold Reading.init. split_and!.
  - intros Hlen.
    destruct (len_is_not (length channels) (length values)) eqn:Hnot; [done|].
    apply len_is_not_false in Hnot. lia.
  - intros Hlen Hsmall Hbad.
    rewrite (proj2 (len_is_not_false _ _)) by done.
    by rewrite build_samples_invalid.
  - intros Hlen Hsmall Hvalid.
    rewrite (proj2 (len_is_not_false _ _)) by done.
    by rewrite build_samples_valid.
Qed.

(** ** Batches *)

Lemma insert_without_sentinels {py} readings self :
  DataStore.insert py readings self
  = DataStore.insert py (without_sentinels readings) self.
Proof.
  revert self. induction readings as [|reading readings IH]; intros self;
    [done|].
  unfold without_sentinels in *. cbn [List.filter]. rewrite insert_cons.
  destruct (Reading.is_zero_sentinel reading) eqn:Hsentinel; cbn [negb];
    [apply IH|].
  rewrite insert_cons, Hsentinel.
  destruct (insert_body py reading self) as [[[]|e] self']; [apply IH|done].
Qed.

(** X2: [insert] of a batch does what [insert] of the batch without its
    zero-sentinel readings does, to the store and in its outcome; and the
    batch without them holds only readings that are not the sentinel, in
    their original order. *)
Theorem insert_skips_sentinels {py} readings self :
  DataStore.insert py readings self
  = DataStore.insert py (without_sentinels readings) self
  /\ Forall not_sentinel (without_sentinels readings)
  /\ sublist (without_sentinels readings) readings.
Proof.
  split_and!; [apply insert_without_sentinels| |].
  - apply Forall_forall. intros reading Hin.
    apply list_elem_of_In, filter_In in Hin as [_ Hin].
    by apply negb_true_iff in Hin.
  - unfold without_sentinels.
    induction readings as [|reading readings IH]; cbn; [done|].
    destruct (negb (Reading.is_zero_sentinel reading));
      by constructor.
Qed.

Lemma readings_of_rows_bad_row is_valid : forall good bad rest e,
  Forall (fun row => is_ok (reading_of_row is_valid row) = true) good ->
  reading_of_row is_valid bad = Raise e ->
  DataStore.readings_of_rows is_valid (good ++ bad :: rest) = Raise e.
Proof.
  unfold reading_of_row.
  induction good as [|row good IH]; intros bad rest e Hgood Hbad; cbn.
  - by rewrite Hbad.
  - apply Forall_cons in Hgood as [Hrow Hgood].
    destruct (Reading.init _ _ _ _) as [reading|]; [|done].
    by rewrite (IH _ _ _ Hgood Hbad).
Qed.

(** X3: [insert_from_dict] builds every reading before it inserts any: if
    a row cannot be built (mismatched lengths, invalid channel), the call
    raises the error of the first such row and the store is left exactly
    as it was, also when earlier rows were fine. *)
Theorem insert_from_dict_bad_row_leaves_store {py}
    is_valid good bad rest e self :
  Forall (fun row => is_ok (reading_of_row is_valid row) = true) good ->
  reading_of_row is_valid bad = Raise e ->
  DataStore.insert_from_dict py is_valid (good ++ bad :: rest) self
  = (Raise e, self).
Proof.
  intros Hgood Hbad. unfold_store_monad.
  by rewrite (readings_of_rows_bad_row _ _ _ _ _ Hgood Hbad).
Qed.

Lemma insert_from_dict_bad_row_leaves_store_witness :
  DataStore.insert_from_dict Python3 sixteen_channels
    ([Reading.dict_repr (reading_at 7 0.5)]
     ++ Reading.mk_dict 8 [17] [Sample.mk_dict 17 0.5] :: [])
    (store_at_5 Python3)
  = (Raise InvalidChannel, store_at_5 Python3).
Proof.
  apply (insert_from_dict_bad_row_leaves_store sixteen_channels
           [Reading.dict_repr (reading_at 7 0.5)]
           (Reading.mk_dict 8 [17] [Sample.mk_dict 17 0.5]) []
           InvalidChannel (store_at_5 Python3)).
  - by repeat constructor.
  - reflexivity.
Defined.

(** ** A callback that raises during [insert] *)

(** When the store is full and the conversion callbacks raise on the new
    reading (which only Python 2 lets them do), the exception leaves
    [insert] after room has been made: without buffer growth the oldest
    reading is already deleted and the new one is not appended; with
    buffer growth the readings are kept but the storage length has grown
    by one. *)
Lemma raising_callback_after_room {py} self reading e :
  DataStore.readings self <> [] ->
  DataStore.reading_storage_length self
    <= Z.of_nat (length (DataStore.readings self)) ->
  not_sentinel reading ->
  fresher reading self ->
  DataStore.apply_callbacks py reading (DataStore.conversion_callbacks self)
    = Raise e ->
  DataStore.insert py [reading] self
  = (Raise e,
     DataStore.mk
       (if DataStore.increase_buffer self
        then DataStore.reading_storage_length self + 1
        else DataStore.reading_storage_length self)
       (DataStore.increase_buffer self)
       (DataStore.conversion_callbacks self)
       (if DataStore.increase_buffer self
        then DataStore.readings self
        else tail (DataStore.readings self))).
Proof.
  intros Hnonempty Hfull Hsentinel Hfresh Hraise.
  rewrite insert_cons, Hsentinel.
  destruct (insert_body_outcome py reading self)
    as [latest Hlast Hle|_ _ _ Hempty|rs cap e' Hroom Hraise'
       |rs cap converted _ Hcb].
  - specialize (Hfresh latest Hlast). lia.
  - done.
  - assert (e' = e) as -> by congruence.
    destruct Hroom as [_ Hfree|_ _ Hgrow|oldest rest _ _ Hgrow Hrs].
    + lia.
    + by rewrite Hgrow.
    + rewrite Hgrow. by rewrite Hrs.
  - congruence.
Qed.

(** ** A store with buffer growth *)

Lemma body_growing {py} self reading converted :
  DataStore.increase_buffer self = true ->
  fresher reading self ->
  DataStore.apply_callbacks py reading (DataStore.conversion_callbacks self)
    = Ok converted ->
  insert_body py reading self
  = (Ok tt,
     DataStore.mk
       (if DataStore.reading_storage_length self
           <=? Z.of_nat (length (DataStore.readings self))
        then DataStore.reading_storage_length self + 1
        else DataStore.reading_storage_length self)
       true (DataStore.conversion_callbacks self)
       (DataStore.readings self ++ [converted])).
Proof.
  intros Hgrow Hfresh Hcb.
  destruct (insert_body_outcome py reading self)
    as [latest Hlast Hle|_ _ Hnogrow _|rs cap e _ Hraise
       |rs cap converted' Hroom Hcb'].
  - specialize (Hfresh latest Hlast). lia.
  - congruence.
  - congruence.
  - assert (converted' = converted) as -> by congruence. rewrite Hgrow.
    destruct Hroom as [_ Hfree|_ Hfull _|oldest rest _ _ Hnogrow _].
    + apply Z.leb_gt in Hfree. by rewrite Hfree.
    + apply Z.leb_le in Hfull. by rewrite Hfull.
    + congruence.
Qed.

Lemma insert_growing {py} : forall readings converted self,
  DataStore.increase_buffer self = true ->
  within_capacity self ->
  StronglySorted Z.lt (times self ++ map Reading.reading_time readings) ->
  Forall not_sentinel readings ->
  Forall2 (fun reading reading' =>
             DataStore.apply_callbacks py reading
               (DataStore.conversion_callbacks self) = Ok reading')
          readings converted ->
  DataStore.insert py readings self
  = (Ok tt,
     DataStore.mk
       (Z.max (DataStore.reading_storage_length self)
              (Z.of_nat (length (DataStore.readings self) + length readings)))
       true (DataStore.conversion_callbacks self)
       (DataStore.readings self ++ converted)).
Proof.
  induction readings as [|reading readings IH];
    intros converted self Hgrow Hwithin Hsorted Hsentinel Hconverted.
  - apply Forall2_nil_inv_l in Hconverted as ->.
    unfold within_capacity in Hwithin. cbn [length DataStore.insert mret
      DataStore.M_ret]. rewrite app_nil_r, Nat.add_0_r, Z.max_l by lia.
    rewrite <- Hgrow. by destruct self.
  - apply Forall2_cons_inv_l in Hconverted
      as (reading' & converted' & Hcb & Hconverted' & ->).
    apply Forall_cons in Hsentinel as [Hsentinel Hsentinel'].
    rewrite insert_cons, Hsentinel.
    rewrite (body_growing _ _ reading'); try done;
      [|by eapply ascending_fresher].
    unfold within_capacity in Hwithin.
    rewrite (IH converted');
      cbn [DataStore.readings DataStore.reading_storage_length
           DataStore.increase_buffer DataStore.conversion_callbacks];
      try done.
    + rewrite <- app_assoc, length_app. cbn [app length]. do 2 f_equal.
      destruct (Z.leb_spec (DataStore.reading_storage_length self)
                  (Z.of_nat (length (DataStore.readings self)))); lia.
    + unfold within_capacity.
      cbn [DataStore.readings DataStore.reading_storage_length].
      rewrite length_app. cbn [length].
      destruct (Z.leb_spec (DataStore.reading_storage_length self)
                  (Z.of_nat (length (DataStore.readings self)))); lia.
    + unfold times. cbn [DataStore.readings]. rewrite map_app. cbn [map].
      apply apply_callbacks_frame in Hcb as (-> & _).
      by rewrite <- app_assoc.
Qed.

(** X5: a new store with buffer growth and a storage length [C >= 0] that
    receives a batch of [n] readings with strictly ascending times, none
    the zero sentinel, converted without a raise, keeps all of them, in
    order, and its storage length becomes the larger of [C] and [n]. *)
Theorem growing_store_keeps_all {py} capacity callbacks readings converted :
  0 <= capacity ->
  StronglySorted Z.lt (map Reading.reading_time readings) ->
  Forall not_sentinel readings ->
  Forall2 (fun reading reading' =>
             DataStore.apply_callbacks py reading callbacks = Ok reading')
          readings converted ->
  DataStore.insert py readings (DataStore.init capacity true callbacks)
  = (Ok tt,
     DataStore.mk (Z.max capacity (Z.of_nat (length readings))) true
       callbacks converted).
Proof.
  intros Hcap Hsorted Hsentinel Hconverted.
  rewrite (insert_growing readings converted); try done.
Qed.

Lemma growing_store_keeps_all_witness :
  DataStore.insert Python3 [reading_at 1 0.5; reading_at 2 0.5; reading_at 3 0.5]
    (DataStore.init 2 true [])
  = (Ok tt,
     DataStore.mk 3 true []
       [reading_at 1 0.5; reading_at 2 0.5; reading_at 3 0.5]).
Proof.
  apply (growing_store_keeps_all 2 []
           [reading_at 1 0.5; reading_at 2 0.5; reading_at 3 0.5]
           [reading_at 1 0.5; reading_at 2 0.5; reading_at 3 0.5]).
  - lia.
  - cbn. repeat constructor; lia.
  - repeat constructor.
  - repeat constructor.
Defined.

(** ** Looking a reading up *)

Lemma find_none_iff {A} (f : A -> bool) (l : list A) :
  List.find f l = None <-> Forall (fun x => f x = false) l.
Proof.
  induction l as [|x l IH]; cbn.
  - split; [constructor|done].
  - rewrite Forall_cons. destruct (f x).
    + split; [done|]. by intros [? _].
    + rewrite IH. tauto.
Qed.

Lemma find_snoc {A} (f : A -> bool) (l : list A) (x : A) :
  Forall (fun y => f y = false) l -> f x = true ->
  List.find f (l ++ [x]) = Some x.
Proof.
  induction 1 as [|y l Hy _ IH]; intros Hx; cbn.
  - by rewrite Hx.
  - rewrite Hy. by apply IH.
Qed.

Lemma find_reading_stored self reading :
  ordered self ->
  reading ∈ DataStore.readings self ->
  DataStore.find_reading self (Reading.reading_time reading) = Some reading.
Proof.
  unfold ordered, times, DataStore.find_reading.
  induction (DataStore.readings self) as [|first stored IH]; cbn.
  - by intros _ ?%elem_of_nil.
  - intros [Hall Hsorted]%StronglySorted_cons [->|Hin]%elem_of_cons.
    + by rewrite Z.eqb_refl.
    + rewrite Forall_forall in Hall.
      assert (Reading.reading_time first < Reading.reading_time reading)
        by by apply Hall, list_elem_of_In, in_map, list_elem_of_In.
      replace (Reading.reading_time first =? Reading.reading_time reading)
        with false by (symmetry; apply Z.eqb_neq; lia).
      by apply IH.
Qed.

(** X6: [find_reading] returns [None] exactly when no stored reading has
    the given time (no error is raised); what it returns is a stored
    reading with that time; and in a store with ascending times every
    stored reading is the one found under its own time. *)
Theorem find_reading_spec self timestamp :
  (DataStore.find_reading self timestamp = None
   <-> ~ timestamp ∈ times self)
  /\ (forall reading,
        DataStore.find_reading self timestamp = Some reading ->
        reading ∈ DataStore.readings self
        /\ Reading.reading_time reading = timestamp)
  /\ (ordered self ->
      forall reading,
        reading ∈ DataStore.readings self ->
        Reading.reading_time reading = timestamp ->
        DataStore.find_reading self timestamp = Some reading).
Proof.
  split_and!.
  - unfold DataStore.find_reading, times. rewrite find_none_iff.
    rewrite Forall_forall. split.
    + intros Hnone Hin.
      apply list_elem_of_In, in_map_iff in Hin as (reading & Htime & Hin).
      apply list_elem_of_In, Hnone, Z.eqb_neq in Hin. done.
    + intros Hnotin reading Hin. apply Z.eqb_neq. intros Htime.
      apply Hnotin. rewrite <- Htime.
      by apply list_elem_of_In, in_map, list_elem_of_In.
  - intros reading Hfound. apply find_some in Hfound as [Hin Htime].
    split; [by apply list_elem_of_In|by apply Z.eqb_eq].
  - intros Hordered reading Hin <-. by apply find_reading_stored.
Qed.

(** X7: after a call of [insert] with one reading, not the zero sentinel,
    that returned normally on a store with ascending times, the reading as
    converted by the store's callbacks is the last stored reading and is
    the one [find_reading] returns for the reading's time. *)
Theorem insert_then_find_reading {py} self reading self' :
  ordered self ->
  not_sentinel reading ->
  DataStore.insert py [reading] self = (Ok tt, self') ->
  exists converted,
    DataStore.apply_callbacks py reading (DataStore.conversion_callbacks self)
      = Ok converted
    /\ last (DataStore.readings self') = Some converted
    /\ DataStore.find_reading self' (Reading.reading_time reading)
       = Some converted.
Proof.
  intros Hordered Hsentinel. rewrite insert_cons, Hsentinel.
  pose proof (body_ordered py reading self Hordered) as Hordered'.
  destruct (insert_body_outcome py reading self)
    as [| |rs cap e _ _|rs cap converted Hroom Hcb]; try done.
  cbn [snd] in Hordered'. rewrite insert_nil. intros [= <-].
  exists converted. split_and!; [done|apply last_snoc|].
  apply apply_callbacks_frame in Hcb as (<- & _).
  apply find_reading_stored; [done|].
  cbn [DataStore.readings]. apply elem_of_app. right. by left.
Qed.

Lemma insert_then_find_reading_witness :
  exists converted,
    DataStore.apply_callbacks Python3 (reading_at 9 0.5) [] = Ok converted
    /\ last (DataStore.readings
               (DataStore.mk 3 false [] [reading_of_two 5 0 0; reading_at 9 0.5]))
       = Some converted
    /\ DataStore.find_reading
         (DataStore.mk 3 false [] [reading_of_two 5 0 0; reading_at 9 0.5]) 9
       = Some converted.
Proof.
  apply (insert_then_find_reading (store_at_5 Python3) (reading_at 9 0.5)
           (DataStore.mk 3 false [] [reading_of_two 5 0 0; reading_at 9 0.5])).
  - unfold ordered. vm_compute. repeat constructor.
  - reflexivity.
  - reflexivity.
Defined.

(** ** Range queries on any reachable store *)

Lemma without_sentinels_not_sentinel readings :
  Forall not_sentinel (without_sentinels readings).
Proof.
  apply Forall_forall. intros reading Hin.
  apply list_elem_of_In, filter_In in Hin as [_ Hin].
  by apply negb_true_iff in Hin.
Qed.

Lemma instance_with_readings_skipping {py} self readings :
  StronglySorted Z.lt (map Reading.reading_time readings) ->
  Z.of_nat (length readings) <= DataStore.reading_storage_length self ->
  DataStore.instance_with_readings py self readings
  = Ok (DataStore.mk (DataStore.reading_storage_length self) false []
          (without_sentinels readings)).
Proof.
  intros Hsorted Hlen.
  unfold DataStore.instance_with_readings, DataStore.returning,
    DataStore.default_increase_buffer, DataStore.default_conversion_callbacks.
  rewrite insert_without_sentinels, insert_into_new; [done| | |].
  - by apply ascending_filter.
  - apply without_sentinels_not_sentinel.
  - etrans; [|apply Hlen]. apply inj_le, length_list_filter.
Qed.

(** X8: on every store reachable from a new store built with a storage
    length of at least zero, with or without callbacks and buffer growth,
    [find_readings_after] and [find_readings_before] return normally, for
    every time.  The store returned has the storage length of the
    original, no buffer growth and no callbacks, and holds the readings
    with time greater than (at most) the given one that do not look like
    the zero sentinel, in the original order. *)
Theorem find_readings_never_raise {py}
    is_valid capacity grow callbacks self timestamp :
  0 <= capacity ->
  reachable py is_valid (DataStore.init capacity grow callbacks) self ->
  DataStore.find_readings_after py self timestamp
  = Ok (DataStore.mk (DataStore.reading_storage_length self) false []
          (without_sentinels
             (List.filter
                (fun reading => timestamp <? Reading.reading_time reading)
                (DataStore.readings self))))
  /\ DataStore.find_readings_before py self timestamp
     = Ok (DataStore.mk (DataStore.reading_storage_length self) false []
             (without_sentinels
                (List.filter
                   (fun reading => Reading.reading_time reading <=? timestamp)
                   (DataStore.readings self)))).
Proof.
  intros Hcap Hreach.
  pose proof (new_store_reaches_ordered _ _ _ _ _ Hreach) as Hordered.
  pose proof (new_store_reaches_within_capacity _ _ _ _ _ Hcap Hreach)
    as Hwithin.
  unfold DataStore.find_readings_after, DataStore.find_readings_before.
  split; apply instance_with_readings_skipping;
    try (by apply ascending_filter);
    (etrans; [|apply Hwithin]); apply inj_le, length_list_filter.
Qed.

Lemma find_readings_never_raise_witness :
  DataStore.find_readings_after Python3 (store_of_two Python3) 2
  = Ok (DataStore.mk 3 false [] [reading_at 3 0.5])
  /\ DataStore.find_readings_before Python3 (store_of_two Python3) 2
     = Ok (DataStore.mk 3 false [] [reading_at 1 0.5]).
Proof.
  apply (find_readings_never_raise (py:=Python3) sixteen_channels 3 false []
           (store_of_two Python3) 2).
  - lia.
  - apply reachable_after_inserts.
Defined.

(** X9: the two range queries are complementary at every time, also at
    the time of a stored reading: on a store reachable from a new store
    with storage length at least zero that holds no sentinel-like reading,
    the readings of [find_readings_before(t)] followed by those of
    [find_readings_after(t)] are the stored readings, every reading of the
    first has time at most [t] and every reading of the second a greater
    one; so a reading stored at exactly [t] is in the first and not in the
    second. *)
Theorem find_readings_complementary {py}
    is_valid capacity grow callbacks self timestamp :
  0 <= capacity ->
  reachable py is_valid (DataStore.init capacity grow callbacks) self ->
  Forall not_sentinel (DataStore.readings self) ->
  exists after before,
    DataStore.find_readings_after py self timestamp
    = Ok (DataStore.mk (DataStore.reading_storage_length self) false [] after)
    /\ DataStore.find_readings_before py self timestamp
       = Ok (DataStore.mk (DataStore.reading_storage_length self) false []
               before)
    /\ before ++ after = DataStore.readings self
    /\ Forall (fun reading => Reading.reading_time reading <= timestamp) before
    /\ Forall (fun reading => timestamp < Reading.reading_time reading) after
    /\ (forall reading,
          reading ∈ DataStore.readings self ->
          Reading.reading_time reading = timestamp ->
          reading ∈ before /\ ~ reading ∈ after).
Proof.
  intros Hcap Hreach Hsentinel.
  pose proof (new_store_reaches_ordered _ _ _ _ _ Hreach) as Hordered.
  pose proof (new_store_reaches_within_capacity _ _ _ _ _ Hcap Hreach)
    as Hwithin.
  destruct (find_readings_in_order (py:=py) self timestamp Hordered Hwithin Hsentinel)
    as [Hafter Hbefore].
  eexists _, _. split_and!; [done|done|by apply split_at_time| | |].
  - apply Forall_forall. intros reading Hin.
    apply list_elem_of_In, filter_In in Hin as [_ Hin]. by apply Z.leb_le.
  - apply Forall_forall. intros reading Hin.
    apply list_elem_of_In, filter_In in Hin as [_ Hin]. by apply Z.ltb_lt.
  - intros reading Hin Htime. split.
    + apply list_elem_of_In, filter_In. split; [by apply list_elem_of_In|].
      apply Z.leb_le. lia.
    + intros Hafter'. apply list_elem_of_In, filter_In in Hafter' as [_ Hlt].
      apply Z.ltb_lt in Hlt. lia.
Qed.

Lemma find_readings_complementary_witness :
  exists after before,
    DataStore.find_readings_after Python3 (store_of_two Python3) 3
    = Ok (DataStore.mk 3 false [] after)
    /\ DataStore.find_readings_before Python3 (store_of_two Python3) 3
       = Ok (DataStore.mk 3 false [] before)
    /\ before ++ after = [reading_at 1 0.5; reading_at 3 0.5]
    /\ Forall (fun reading => Reading.reading_time reading <= 3) before
    /\ Forall (fun reading => 3 < Reading.reading_time reading) after
    /\ (forall reading,
          reading ∈ [reading_at 1 0.5; reading_at 3 0.5] ->
          Reading.reading_time reading = 3 ->
          reading ∈ before /\ ~ reading ∈ after).
Proof.
  apply (find_readings_complementary sixteen_channels 3 false []
           (store_of_two Python3) 3).
  - lia.
  - apply reachable_after_inserts.
  - repeat constructor.
Defined.

(** ** What [json_repr] returns *)

Lemma trim_loop_returns_fitting py float_repr json_readings max_bytes :
  forall fuel json_encoded text,
    DataStore.trim_loop py float_repr fuel json_readings (Some max_bytes)
      json_encoded
    = Some (Ok text) ->
    len text <= max_bytes
    /\ (text = json_encoded
        \/ text = Json.dumps float_repr (py_drop_last json_readings)).
Proof.
  induction fuel as [|fuel IH]; intros json_encoded text; cbn; [done|].
  destruct (max_bytes <? len json_encoded) eqn:Hlong.
  - intros Hloop. apply IH in Hloop as [Hfits [->| ->]]; auto.
  - intros [= <-]. split; [by apply Z.ltb_ge|by left].
Qed.

(** X10: with a bound [max_bytes] given, [json_repr] has these outcomes.
    If the encoding of all readings is no longer than the bound, it is
    returned, with or without trimming.  Without trimming a longer
    encoding raises the too-long exception; the loop is not entered.  With
    trimming a longer encoding is replaced by the encoding of all readings
    but the last if that one fits (two turns of the loop are enough), and
    otherwise the call never returns. *)
Theorem json_repr_outcomes {py} (float_repr : float -> string)
    (self : DataStore.t) (max_bytes : Z) (fuel : nat) :
  (len (Json.dumps float_repr
          (map Reading.dict_repr (DataStore.readings self))) <= max_bytes ->
   forall trim,
     DataStore.json_repr py float_repr fuel self (Some max_bytes) trim
     = Some (Ok (Json.dumps float_repr
                   (map Reading.dict_repr (DataStore.readings self)))))
  /\ (max_bytes
      < len (Json.dumps float_repr
               (map Reading.dict_repr (DataStore.readings self))) ->
      DataStore.json_repr py float_repr fuel self (Some max_bytes) false
      = Some (Raise PayloadTooLargeError)
      /\ (len (Json.dumps float_repr
                 (py_drop_last
                    (map Reading.dict_repr (DataStore.readings self))))
          <= max_bytes ->
          DataStore.json_repr py float_repr (S (S fuel)) self (Some max_bytes)
            true
          = Some (Ok (Json.dumps float_repr
                        (py_drop_last
                           (map Reading.dict_repr
                              (DataStore.readings self))))))
      /\ (max_bytes
          < len (Json.dumps float_repr
                   (py_drop_last
                      (map Reading.dict_repr (DataStore.readings self)))) ->
          DataStore.json_repr py float_repr fuel self (Some max_bytes) true
          = None)).
Proof.
  split.
  - intros Hfits trim. apply json_repr_fits.
    rewrite py_gt_some. f_equal. by apply Z.ltb_ge.
  - intros Hlong. apply Z.ltb_lt in Hlong. split_and!.
    + apply json_repr_untrimmed_raises. rewrite py_gt_some. by f_equal.
    + intros Hshorter. apply json_repr_trims_once; rewrite py_gt_some;
        f_equal; [done|]. by apply Z.ltb_ge.
    + intros Hshorter. apply json_repr_stuck; rewrite py_gt_some;
        f_equal; [done|]. by apply Z.ltb_lt.
Qed.

(** X11: whenever [json_repr] returns a text for a bound [max_bytes], with
    or without trimming and whatever the fuel, the text is no longer than
    the bound, and it is the encoding of all stored readings or of all but
    the last one: trimming never removes more than one reading. *)
Theorem json_repr_returned_text_fits {py} (float_repr : float -> string)
    fuel self max_bytes trim text :
  DataStore.json_repr py float_repr fuel self (Some max_bytes) trim
    = Some (Ok text) ->
  len text <= max_bytes
  /\ (text = Json.dumps float_repr
               (map Reading.dict_repr (DataStore.readings self))
      \/ text = Json.dumps float_repr
                  (py_drop_last
                     (map Reading.dict_repr (DataStore.readings self)))).
Proof.
  unfold DataStore.json_repr. cbn zeta. rewrite py_gt_some.
  destruct (max_bytes <? len (Json.dumps float_repr
              (map Reading.dict_repr (DataStore.readings self)))) eqn:Hlong.
  - destruct trim; [|done].
    intros Hloop. by apply trim_loop_returns_fitting in Hloop.
  - intros [= <-]. split; [by apply Z.ltb_ge|by left].
Qed.

Lemma json_repr_returned_text_fits_witness :
  len "[]" <= 60
  /\ ("[]"%string
      = Json.dumps (fun _ => "0.0"%string)
          (map Reading.dict_repr (DataStore.readings (store_at_5 Python3)))
      \/ "[]"%string
         = Json.dumps (fun _ => "0.0"%string)
             (py_drop_last
                (map Reading.dict_repr
                   (DataStore.readings (store_at_5 Python3))))).
Proof.
  apply (json_repr_returned_text_fits (py:=Python3) (fun _ => "0.0"%string)
           2 (store_at_5 Python3) 60 true).
  reflexivity.
Defined.

(** ** What [insert] leaves of the store *)

Lemma room_drop reading self rs cap :
  room reading self rs cap ->
  exists k, rs = drop k (DataStore.readings self)
            /\ (DataStore.increase_buffer self = true -> k = 0%nat).
Proof.
  intros [_ _|_ _ _|oldest rest _ _ Hnogrow Hrs].
  - by exists 0%nat.
  - by exists 0%nat.
  - exists 1%nat. rewrite Hrs. split; [done|congruence].
Qed.

Lemma body_extends py reading self :
  exists k kept added,
    DataStore.readings (snd (insert_body py reading self))
    = drop k (DataStore.readings self) ++ added
    /\ (DataStore.increase_buffer self = true -> k = 0%nat)
    /\ sublist kept [reading]
    /\ Forall2 (fun given stored =>
                  DataStore.apply_callbacks py given
                    (DataStore.conversion_callbacks self) = Ok stored)
               kept added.
Proof.
  destruct (insert_body_outcome py reading self)
    as [| |rs cap e Hroom _|rs cap converted Hroom Hcb]; cbn [snd].
  - exists 0%nat, [], []. rewrite app_nil_r.
    split_and!; [done|done|apply sublist_nil_l|constructor].
  - exists 0%nat, [], []. rewrite app_nil_r.
    split_and!; [done|done|apply sublist_nil_l|constructor].
  - apply room_drop in Hroom as (k & -> & Hk).
    exists k, [], []. cbn [DataStore.readings]. rewrite app_nil_r.
    split_and!; [done|done|apply sublist_nil_l|constructor].
  - apply room_drop in Hroom as (k & -> & Hk).
    exists k, [reading], [converted]. cbn [DataStore.readings].
    split_and!; [done|done|done|by repeat constructor].
Qed.

(** X12: a call of [insert], raising or not, never changes or reorders
    the readings it keeps: afterwards the store holds the old readings
    without some of the oldest, followed by the conversions, one for one
    and in order, of readings picked from the batch without repetition and
    in batch order (so at most one stored reading per reading of the
    batch).  With buffer growth none of the old readings is dropped. *)
Theorem insert_keeps_stored_readings {py} readings : forall self,
  exists k kept added,
    DataStore.readings (snd (DataStore.insert py readings self))
    = drop k (DataStore.readings self) ++ added
    /\ (DataStore.increase_buffer self = true -> k = 0%nat)
    /\ sublist kept readings
    /\ Forall2 (fun given stored =>
                  DataStore.apply_callbacks py given
                    (DataStore.conversion_callbacks self) = Ok stored)
               kept added.
Proof.
  induction readings as [|reading readings IH]; intros self.
  - exists 0%nat, [], []. rewrite app_nil_r.
    split_and!; [done|done|constructor|constructor].
  - rewrite insert_cons.
    destruct (Reading.is_zero_sentinel reading).
    { destruct (IH self) as (k & kept & added & Heq & Hk & Hsub & Hconv).
      exists k, kept, added. split_and!; [done|done| |done].
      by apply sublist_cons. }
    destruct (body_extends py reading self)
      as (k0 & kept0 & added0 & Heq0 & Hk0 & Hsub0 & Hconv0).
    pose proof (body_settings py reading self) as [Hgrow Hcallbacks].
    destruct (insert_body py reading self) as [[[]|e] self']; cbn [snd] in *.
    + destruct (IH self')
        as (k1 & kept1 & added1 & Heq1 & Hk1 & Hsub1 & Hconv1).
      rewrite Hgrow, Hcallbacks in *.
      exists (k0 + k1)%nat,
        (drop (k1 - length (drop k0 (DataStore.readings self))) kept0
         ++ kept1),
        (drop (k1 - length (drop k0 (DataStore.readings self))) added0
         ++ added1).
      split_and!.
      * by rewrite Heq1, Heq0, drop_app, drop_drop, app_assoc.
      * intros Htrue. rewrite (Hk0 Htrue), (Hk1 Htrue). done.
      * change (reading :: readings) with ([reading] ++ readings).
        apply sublist_app; [|done].
        etrans; [apply sublist_drop|done].
      * apply Forall2_app; [|done]. by apply Forall2_drop.
    + exists k0, kept0, added0.
      split_and!; [done|done| |done].
      change (reading :: readings) with ([reading] ++ readings).
      by apply sublist_inserts_r.
Qed.

(** X13: no call of [insert] or [insert_from_dict] changes the buffer
    growth flag or the list of callbacks; the storage length never gets
    smaller, and without buffer growth it never changes. *)
Theorem insert_keeps_settings {py} is_valid start self :
  reachable py is_valid start self ->
  DataStore.increase_buffer self = DataStore.increase_buffer start
  /\ DataStore.conversion_callbacks self = DataStore.conversion_callbacks start
  /\ DataStore.reading_storage_length start
     <= DataStore.reading_storage_length self
  /\ (DataStore.increase_buffer start = false ->
      DataStore.reading_storage_length self
      = DataStore.reading_storage_length start).
Proof.
  intros Hreach.
  destruct (reachable_settings _ _ _ Hreach) as [Hgrow Hcallbacks].
  split_and!; [done..| |]; revert Hreach.
  - apply (reachable_preserves is_valid (fun self =>
      DataStore.reading_storage_length start
      <= DataStore.reading_storage_length self)); [|lia].
    intros reading s _ Hle.
    destruct (insert_body_outcome py reading s)
      as [| |rs cap e Hroom _|rs cap converted Hroom _]; cbn; try done;
      destruct Hroom; lia.
  - intros Hreach Hnogrow. revert Hreach.
    apply (reachable_preserves is_valid (fun self =>
      DataStore.increase_buffer self = false
      /\ DataStore.reading_storage_length self
         = DataStore.reading_storage_length start)); [|done].
    intros reading s _ [Hs Hcap].
    destruct (insert_body_outcome py reading s)
      as [| |rs cap e Hroom _|rs cap converted Hroom _]; cbn; try done;
      destruct Hroom; (done || congruence).
Qed.

Lemma insert_keeps_settings_witness :
  DataStore.increase_buffer (store_grown_from_negative Python3) = true
  /\ DataStore.conversion_callbacks (store_grown_from_negative Python3) = []
  /\ -1 <= DataStore.reading_storage_length (store_grown_from_negative Python3)
  /\ (true = false ->
      DataStore.reading_storage_length (store_grown_from_negative Python3) = -1).
Proof.
  apply (insert_keeps_settings (py:=Python3) sixteen_channels (DataStore.init (-1) true [])
           (store_grown_from_negative Python3)).
  apply reachable_after_inserts.
Defined.

(** X14: a store built without conversion callbacks never holds a
    reading that has time 0 and only zero values, whatever calls of
    [insert] and [insert_from_dict] were made on it, raising or not. *)
Theorem no_callbacks_no_stored_sentinel {py} is_valid capacity grow self :
  reachable py is_valid (DataStore.init capacity grow []) self ->
  Forall not_sentinel (DataStore.readings self).
Proof. apply reachable_no_sentinel. Qed.

Lemma no_callbacks_no_stored_sentinel_witness :
  Forall not_sentinel
    (DataStore.readings
       (after_inserts Python3 (DataStore.init 1 true [])
          [[reading_of_two 0 0 0; reading_of_two 0 0 0.5];
           [reading_at 0 0.5; reading_at 4 0]])).
Proof.
  apply (no_callbacks_no_stored_sentinel (py:=Python3) sixteen_channels
           1 true).
  apply reachable_after_inserts.
Defined.

(** ** Conversion *)

Lemma write_back_same_length samples output :
  length output = length samples ->
  map Sample.value (Reading.write_back samples output) = output.
Proof.
  intros Hlen. rewrite write_back_values, <- Hlen, firstn_all.
  rewrite drop_ge; [by rewrite app_nil_r|]. rewrite length_map. lia.
Qed.

(** X15: when the function returns as many values as the reading has
    samples, [apply_function] makes exactly these the values of the
    samples, in order, and changes neither the time nor the channels. *)
Theorem apply_function_same_length reading function output :
  function (Reading.values reading) = Ok output ->
  length output = length (Reading.samples reading) ->
  exists reading',
    Reading.apply_function reading function = Ok reading'
    /\ Reading.values reading' = output
    /\ Reading.reading_time reading' = Reading.reading_time reading
    /\ Reading.channels reading' = Reading.channels reading
    /\ map Sample.channel (Reading.samples reading')
       = map Sample.channel (Reading.samples reading).
Proof.
  intros Hout Hlen. unfold Reading.apply_function. rewrite Hout.
  eexists. split; [done|]. unfold Reading.values. cbn.
  split_and!; [by apply write_back_same_length|done..|].
  apply write_back_channels.
Qed.

Lemma apply_function_same_length_witness :
  exists reading',
    Reading.apply_function (reading_of_two 7 1 2)
      (fun values => Ok (rev values)) = Ok reading'
    /\ Reading.values reading' = [2%float; 1%float]
    /\ Reading.reading_time reading' = 7
    /\ Reading.channels reading' = [1; 2]
    /\ map Sample.channel (Reading.samples reading') = [1; 2].
Proof.
  apply (apply_function_same_length (reading_of_two 7 1 2)
           (fun values => Ok (rev values)) [2%float; 1%float]);
    reflexivity.
Defined.

Lemma apply_function_values reading function :
  keeps_length function ->
  match Reading.apply_function reading function with
  | Ok reading' =>
      function (Reading.values reading) = Ok (Reading.values reading')
      /\ length (Reading.samples reading') = length (Reading.samples reading)
  | Raise e => function (Reading.values reading) = Raise e
  end.
Proof.
  intros Hkeeps. unfold Reading.apply_function.
  destruct (function (Reading.values reading)) as [output|e] eqn:Hout;
    [|done].
  apply Hkeeps in Hout. unfold Reading.values in *. cbn.
  rewrite length_map in Hout.
  rewrite write_back_same_length by done. split; [done|].
  rewrite <- (length_map Sample.value), write_back_same_length by done. done.
Qed.

(** Where the callbacks are called (Python 2), they act on a reading as
    one chain, in the order of the list: if each returns as many values as
    it is given, the values of the converted reading are what the last
    callback returns when each callback is given the result of the one
    before, and the run raises exactly when the chain does. *)
Lemma call_each_in_order callbacks : forall reading,
  Forall keeps_length callbacks ->
  match DataStore.call_each reading callbacks with
  | Ok converted =>
      pipeline callbacks (Reading.values reading)
      = Ok (Reading.values converted)
  | Raise e => pipeline callbacks (Reading.values reading) = Raise e
  end.
Proof.
  induction callbacks as [|func callbacks IH]; intros reading Hkeep;
    cbn [DataStore.call_each pipeline]; [done|].
  apply Forall_cons in Hkeep as [Hfunc Hkeep].
  pose proof (apply_function_values reading func Hfunc) as Hstep.
  destruct (Reading.apply_function reading func) as [reading'|e].
  - destruct Hstep as [-> _]. by apply IH.
  - by rewrite Hstep.
Qed.



(** ** The sample dictionaries *)

Lemma sample_dict_gen_timestamps reading :
  map Sample.t_timestamp (Reading.sample_dict_gen reading)
  = repeat (Reading.reading_time reading) (length (Reading.samples reading)).
Proof.
  unfold Reading.sample_dict_gen. rewrite map_map. cbn.
  induction (Reading.samples reading) as [|sample samples IH]; cbn; [done|].
  by rewrite IH.
Qed.

Lemma yielded_timestamp_stored (readings : list Reading.t) (t : Z) :
  t ∈ map Sample.t_timestamp (concat (map Reading.sample_dict_gen readings)) ->
  t ∈ map Reading.reading_time readings.
Proof.
  induction readings as [|reading readings IH]; cbn; [done|].
  rewrite map_app, sample_dict_gen_timestamps.
  intros [Hin|Hin]%elem_of_app.
  - apply list_elem_of_In, repeat_spec in Hin as ->. by left.
  - right. by apply IH.
Qed.

Lemma repeat_sorted (t : Z) (n : nat) : StronglySorted Z.le (repeat t n).
Proof.
  induction n as [|n IH]; cbn; constructor; [done|].
  apply Forall_forall. intros u Hin.
  apply list_elem_of_In, repeat_spec in Hin as ->. lia.
Qed.

(** X17: [DataStore.sample_dict_gen] yields one generator per stored
    reading, in storage order; the generator of a reading yields one
    dictionary per sample, in order, which is the sample's [dict_repr]
    with the reading's time added as ['timestamp'].  In a store with
    ascending times, a consumer that runs through the generators one after
    the other therefore meets timestamps that never decrease. *)
Theorem sample_dict_gen_in_time_order self :
  Forall2 (fun reading yielded =>
             map (fun d => Sample.mk_dict (Sample.t_channel d)
                                          (Sample.t_value d)) yielded
             = Reading.k_samples (Reading.dict_repr reading)
             /\ map Sample.t_timestamp yielded
                = repeat (Reading.reading_time reading)
                         (length (Reading.samples reading)))
          (DataStore.readings self) (DataStore.sample_dict_gen self)
  /\ (ordered self -> StronglySorted Z.le (yielded_timestamps self)).
Proof.
  unfold ordered, times, yielded_timestamps, DataStore.sample_dict_gen.
  split.
  - induction (DataStore.readings self) as [|reading readings IH]; cbn;
      constructor; [|done].
    split; [|apply sample_dict_gen_timestamps].
    unfold Reading.sample_dict_gen. rewrite map_map. cbn.
    apply map_ext. by intros [].
  - induction (DataStore.readings self) as [|reading readings IH]; cbn;
      [constructor|].
    intros [Hall Hsorted]%StronglySorted_cons.
    rewrite map_app, sample_dict_gen_timestamps.
    apply StronglySorted_app. split_and!;
      [|apply repeat_sorted|by apply IH].
    intros t1 t2 Hin1 Hin2%yielded_timestamp_stored.
    apply list_elem_of_In, repeat_spec in Hin1 as ->.
    rewrite Forall_forall in Hall. apply Z.lt_le_incl. by apply Hall.
Qed.

(** ** Stores built from a batch or a snapshot *)

Lemma readings_of_rows_length is_valid : forall ddict readings,
  DataStore.readings_of_rows is_valid ddict = Ok readings ->
  length readings = length ddict.
Proof.
  induction ddict as [|row ddict IH]; intros readings; cbn.
  - by intros [= <-].
  - destruct (Reading.init _ _ _ _) as [reading|]; [|done].
    destruct (DataStore.readings_of_rows is_valid ddict) as [rest|]; [|done].
    intros [= <-]. cbn. by rewrite (IH rest).
Qed.

(** X18: [instance_from_dict] on a snapshot whose rows can all be built
    into readings with strictly ascending times returns a store without
    buffer growth and callbacks whose storage length is the number of rows
    and whose readings are the readings of the rows, in order, without
    those that are the zero sentinel (these count for the storage length
    but are not stored). *)
Theorem instance_from_dict_of_ascending_rows {py} is_valid ddict readings :
  DataStore.readings_of_rows is_valid ddict = Ok readings ->
  StronglySorted Z.lt (map Reading.reading_time readings) ->
  DataStore.instance_from_dict py is_valid ddict
    DataStore.default_increase_buffer DataStore.default_conversion_callbacks
  = Ok (DataStore.mk (Z.of_nat (length ddict)) false []
          (without_sentinels readings)).
Proof.
  intros Hrows Hsorted.
  unfold DataStore.instance_from_dict, DataStore.returning,
    DataStore.default_increase_buffer, DataStore.default_conversion_callbacks.
  unfold_store_monad. rewrite Hrows.
  rewrite insert_without_sentinels, insert_into_new; [done| | |].
  - by apply ascending_filter.
  - apply without_sentinels_not_sentinel.
  - rewrite <- (readings_of_rows_length _ _ _ Hrows).
    apply inj_le, length_list_filter.
Qed.

Lemma instance_from_dict_of_ascending_rows_witness :
  DataStore.instance_from_dict Python3 sixteen_channels
    [Reading.dict_repr (reading_at 0 0); Reading.dict_repr (reading_at 4 0.5)]
    false []
  = Ok (DataStore.mk 2 false [] [reading_at 4 0.5]).
Proof.
  apply (instance_from_dict_of_ascending_rows sixteen_channels
    [Reading.dict_repr (reading_at 0 0); Reading.dict_repr (reading_at 4 0.5)]
    [reading_at 0 0; reading_at 4 0.5]).
  - reflexivity.
  - cbn. repeat constructor; lia.
Defined.

(** X19: a new store without buffer growth whose storage length is at
    least the length of the batch keeps a batch of readings with strictly
    ascending times, none the zero sentinel, converted without a raise,
    exactly as converted and in order; nothing is evicted and the storage
    length stays. *)
Theorem new_store_holds_batch {py} capacity callbacks readings converted :
  Z.of_nat (length readings) <= capacity ->
  StronglySorted Z.lt (map Reading.reading_time readings) ->
  Forall not_sentinel readings ->
  Forall2 (fun reading reading' =>
             DataStore.apply_callbacks py reading callbacks = Ok reading')
          readings converted ->
  DataStore.insert py readings (DataStore.init capacity false callbacks)
  = (Ok tt, DataStore.mk capacity false callbacks converted).
Proof.
  intros Hlen Hsorted Hsentinel Hconverted.
  pose proof (Forall2_length _ _ _ Hconverted) as Hlen'.
  destruct readings as [|reading readings].
  { by apply Forall2_nil_inv_l in Hconverted as ->. }
  rewrite (insert_evicting (Z.to_nat capacity) _ converted);
    cbn [DataStore.init DataStore.readings DataStore.increase_buffer
         DataStore.reading_storage_length DataStore.conversion_callbacks
         length] in *; try done; try lia.
  unfold with_readings. cbn [DataStore.readings app].
  rewrite newest_all; [done|]. lia.
Qed.

Lemma new_store_holds_batch_witness :
  DataStore.insert Python3 [reading_at 1 0.5; reading_at 2 0.5]
    (DataStore.init 2 false [])
  = (Ok tt, DataStore.mk 2 false [] [reading_at 1 0.5; reading_at 2 0.5]).
Proof.
  apply (new_store_holds_batch (py:=Python3) 2 []
           [reading_at 1 0.5; reading_at 2 0.5]
           [reading_at 1 0.5; reading_at 2 0.5]).
  - cbn. lia.
  - cbn. repeat constructor; lia.
  - repeat constructor.
  - repeat constructor.
Defined.

(** X20: the eviction rule for any store without buffer growth: if its
    storage length is [C >= 1] and it holds at most [C] readings, a batch
    of readings with strictly ascending times, all later than the stored
    ones, none the zero sentinel, converted without a raise, is accepted
    whole, and afterwards the store holds the [C] most recent of the old
    readings followed by the converted new ones (all of them if they are
    fewer than [C]), in order. *)
Theorem evicting_store_holds_newest {py} (C : nat) readings converted self :
  DataStore.increase_buffer self = false ->
  DataStore.reading_storage_length self = Z.of_nat C ->
  (1 <= C)%nat ->
  (length (DataStore.readings self) <= C)%nat ->
  StronglySorted Z.lt (times self ++ map Reading.reading_time readings) ->
  Forall not_sentinel readings ->
  Forall2 (fun reading reading' =>
             DataStore.apply_callbacks py reading
               (DataStore.conversion_callbacks self) = Ok reading')
          readings converted ->
  DataStore.insert py readings self
  = (Ok tt,
     DataStore.mk (Z.of_nat C) false (DataStore.conversion_callbacks self)
       (drop (length (DataStore.readings self) + length converted - C)
             (DataStore.readings self ++ converted)))
  /\ (length (drop (length (DataStore.readings self) + length converted - C)
                   (DataStore.readings self ++ converted)) <= C)%nat.
Proof.
  intros Hgrow Hcap HC Hlen Hsorted Hsentinel Hconverted.
  split.
  - rewrite (insert_evicting C readings converted) by done.
    unfold with_readings, newest. by rewrite Hgrow, Hcap, length_app.
  - rewrite length_drop, length_app. lia.
Qed.

Lemma evicting_store_holds_newest_witness :
  DataStore.insert Python3 [reading_at 6 0.5; reading_at 7 0.5]
    (DataStore.mk 2 false [] [reading_at 4 0.5; reading_at 5 0.5])
  = (Ok tt, DataStore.mk 2 false [] [reading_at 6 0.5; reading_at 7 0.5])
  /\ (length [reading_at 6 0.5; reading_at 7 0.5] <= 2)%nat.
Proof.
  apply (evicting_store_holds_newest 2
           [reading_at 6 0.5; reading_at 7 0.5]
           [reading_at 6 0.5; reading_at 7 0.5]
           (DataStore.mk 2 false [] [reading_at 4 0.5; reading_at 5 0.5])).
  - reflexivity.
  - reflexivity.
  - lia.
  - cbn. lia.
  - cbn. repeat constructor; lia.
  - repeat constructor.
  - repeat constructor.
Defined.

(** ** The exceptions of [insert] *)

(** X4: [insert] raises nothing of its own but the earlier-time exception
    and the [IndexError] of deleting from an empty list.  Any other
    exception comes out of a conversion callback called on a reading of
    the batch, which happens on Python 2 only: on Python 3, where the
    callbacks are not called, these two are all [insert] can raise. *)
Theorem insert_raises_only {py} readings : forall self e,
  fst (DataStore.insert py readings self) = Raise e ->
  e = NonMonotonicTimeError
  \/ e = IndexError msg_del_empty
  \/ (py = Python2
      /\ exists reading,
           reading ∈ readings
           /\ DataStore.call_each reading (DataStore.conversion_callbacks self)
              = Raise e).
Proof.
  induction readings as [|reading readings IH]; intros self e; [done|].
  assert (forall self',
            DataStore.conversion_callbacks self'
              = DataStore.conversion_callbacks self ->
            fst (DataStore.insert py readings self') = Raise e ->
            e = NonMonotonicTimeError
            \/ e = IndexError msg_del_empty
            \/ (py = Python2
                /\ exists reading',
                     reading' ∈ reading :: readings
                     /\ DataStore.call_each reading'
                          (DataStore.conversion_callbacks self) = Raise e))
    as Hrest.
  { intros self' Hsame Hraise.
    destruct (IH self' e Hraise) as [?|[?|(Hpy & reading' & Hin & Hcall)]];
      [by left|by right; left|].
    right; right. split; [done|]. exists reading'.
    split; [by right|by rewrite <- Hsame]. }
  rewrite insert_cons.
  destruct (Reading.is_zero_sentinel reading); [by apply Hrest|].
  pose proof (body_settings py reading self) as [_ Hcallbacks].
  destruct (insert_body_outcome py reading self)
    as [| |rs cap e' _ Hcb|rs cap converted _ _]; cbn [fst snd] in *.
  - intros [= <-]. by left.
  - intros [= <-]. by right; left.
  - intros [= <-]. right; right. destruct py; [|done].
    split; [done|]. exists reading. split; [by left|done].
  - by apply Hrest.
Qed.

Lemma insert_raises_only_witness :
  IndexError msg_del_empty = NonMonotonicTimeError
  \/ IndexError msg_del_empty = IndexError msg_del_empty
  \/ (Python3 = Python2
      /\ exists reading,
           reading ∈ [reading_at 1 0.5]
           /\ DataStore.call_each reading
                (DataStore.conversion_callbacks
                   (DataStore.init 0 false [zeroing]))
              = Raise (IndexError msg_del_empty)).
Proof.
  apply (insert_raises_only (py:=Python3) [reading_at 1 0.5]
           (DataStore.init 0 false [zeroing]) (IndexError msg_del_empty)).
  reflexivity.
Defined.
